(** * Techin: the NGL sender's transport classification and submission loop

    A shallow embedding of [src/techin.py]: [send_ngl_message] (one HTTP
    attempt and the classification of its result),
    [send_multiple_messages] (the retry / backoff loop and the final
    summary) and the input checks of the script, followed by the
    properties of the specification that concern them and by further
    properties of the code.

    Modelling conventions.
    - Python [int]s are [Z]; Python [str]s are [string].
    - The HTTP call is the environment: what [session.post] did in one
      attempt is an [Attempt], and one loop pass is fed a [PassEnv]: the
      attempt together with what the user types should [input] be called
      in that pass.
    - [print], [input] and [time.sleep] are recorded as a list of [Event]s.
    - [wait_time] is a Python [float]; it is modelled by the exact rational
      it denotes.  For the values that are not cut to [300] the product
      [30 * 1.5 ** k] is a dyadic rational with a small numerator, which
      binary64 represents exactly; above the cap [min] returns [300].  The
      model does not cover the [OverflowError] that [1.5 ** k] raises once
      the power leaves the binary64 range (k >= 1751). *)

From Stdlib Require Import ZArith QArith Qminmax Qround Qpower.
From Stdlib Require Import List String Ascii Bool Lia.
From Stdlib Require Import DecimalString DecimalZ Sorted.
Import ListNotations.

Local Open Scope string_scope.
Local Open Scope Z_scope.

(** ** Python built-ins used by the program *)

Module Py.

(** [str(n)] for an [int]. *)
Definition str (n : Z) : string := NilZero.string_of_int (Z.to_int n).

(** [sub in s] for two [str]s. *)
Fixpoint contains (sub s : string) : bool :=
  String.prefix sub s
  || match s with
     | EmptyString => false
     | String _ s' => contains sub s'
     end.

(** [str.isspace] on one character, for the ASCII range (tab to carriage
    return, the four separators and the space); white space outside ASCII
    is not modelled. *)
Definition isspace (c : ascii) : bool :=
  let n := Z.of_nat (nat_of_ascii c) in
  ((9 <=? n) && (n <=? 13)) || ((28 <=? n) && (n <=? 32)).

Fixpoint lstrip (s : string) : string :=
  match s with
  | EmptyString => EmptyString
  | String c s' => if isspace c then lstrip s' else s
  end.

Fixpoint rstrip (s : string) : string :=
  match s with
  | EmptyString => EmptyString
  | String c s' =>
      match rstrip s' with
      | EmptyString => if isspace c then EmptyString else String c EmptyString
      | r => String c r
      end
  end.

(** [s.strip()]. *)
Definition strip (s : string) : string := rstrip (lstrip s).

(** [int(x)] for a [float]: truncation towards zero. *)
Definition int (x : Q) : Z := Z.quot (Qnum x) (Zpos (Qden x)).

(** [range(n, 0, -1)]: [n, n-1, ..., 1]. *)
Definition range_down (n : Z) : list Z :=
  map (fun k => n - Z.of_nat k) (seq 0 (Z.to_nat n)).

End Py.

(** ** Transport: [send_ngl_message] *)

(** What [session.post] did: it returned a response with some status code,
    or raised.  The three exception cases are the three [except] clauses, in
    the order in which they are tried ([ConnectTimeout] is a [Timeout]);
    [e] is [str(e)].  An exception that is no [RequestException] is not
    caught by the function and is not part of this type. *)
Inductive Attempt : Type :=
| Response (status_code : Z)
| RaisedTimeout
| RaisedConnectionError
| RaisedRequestException (e : string).

Definition send_ngl_message (a : Attempt) : bool * string :=
  match a with
  | Response status_code =>
      if status_code =? 200 then (true, "Success")
      else if status_code =? 429 then (false, "Rate limited (429)")
      else (false, "Status code: " ++ Py.str status_code)
  | RaisedTimeout => (false, "Request timeout")
  | RaisedConnectionError => (false, "Connection error")
  | RaisedRequestException e => (false, "Request error: " ++ e)
  end.

(** ** Submission loop: [send_multiple_messages] *)

Record LoopState : Type := mkLoopState {
  i : Z;
  success_count : Z;
  fail_count : Z;
  consecutive_rate_limits : Z
}.

Definition initial_state : LoopState :=
  {| i := 1; success_count := 0; fail_count := 0; consecutive_rate_limits := 0 |}.

Definition base_wait_time : Q := 30.

(** [base_wait_time * (1.5 ** (consecutive_rate_limits - 1))], before the cap. *)
Definition uncapped_wait_time (consecutive_rate_limits : Z) : Q :=
  (base_wait_time * (3 # 2) ^ (consecutive_rate_limits - 1))%Q.

(** The value of [wait_time] after [min(wait_time, 300)]. *)
Definition wait_time (consecutive_rate_limits : Z) : Q :=
  Qmin (uncapped_wait_time consecutive_rate_limits) 300.

Inductive Event : Type :=
| Sending (slot count : Z)
| PrintSuccess
| SleepUniform (min_delay max_delay : Q)
| PrintRateLimited (hits : Z) (wait : Q)
| Prompt (hits : Z) (wait : Q)
| PrintStopping
| PrintWaiting (remaining : Z)
| Sleep (seconds : Z)
| PrintWaitComplete
| PrintFailed (message_status : string).

(** The environment of one pass: what the HTTP call does, and the line the
    user types if [input] is called (it is called in the rate-limit branch
    only, from the third rate limit in a row on). *)
Record PassEnv : Type := mkPassEnv {
  attempt : Attempt;
  answer : string
}.

Inductive Flow : Type := Continue | Break.

(** The countdown timer of the rate-limit branch. *)
Definition countdown (wait : Q) : list Event :=
  (flat_map (fun remaining => [PrintWaiting remaining; Sleep 1])
            (Py.range_down (Py.int wait))
   ++ [PrintWaitComplete])%list.

(** One execution of the body of [while i <= count]. *)
Definition loop_pass (count : Z) (min_delay max_delay : Q)
    (st : LoopState) (e : PassEnv) : Flow * LoopState * list Event :=
  let '(success, message_status) := send_ngl_message (attempt e) in
  if success then
    let st' := {| i := i st + 1;
                  success_count := success_count st + 1;
                  fail_count := fail_count st;
                  consecutive_rate_limits := 0 |} in
    (Continue, st',
     Sending (i st) count :: PrintSuccess
       :: (if i st' <=? count then [SleepUniform min_delay max_delay] else []))
  else if Py.contains "429" message_status then
    let st' := {| i := i st;
                  success_count := success_count st;
                  fail_count := fail_count st + 1;
                  consecutive_rate_limits := consecutive_rate_limits st + 1 |} in
    let hits := consecutive_rate_limits st' in
    let wait := wait_time hits in
    let head := [Sending (i st) count; PrintRateLimited hits wait] in
    if 3 <=? hits then
      if String.eqb (Py.strip (answer e)) "2" then
        (Break, st', (head ++ [Prompt hits wait; PrintStopping])%list)
      else
        (Continue, st', (head ++ Prompt hits wait :: countdown wait)%list)
    else
      (Continue, st', (head ++ countdown wait)%list)
  else
    let st' := {| i := i st + 1;
                  success_count := success_count st;
                  fail_count := fail_count st + 1;
                  consecutive_rate_limits := 0 |} in
    (Continue, st', [Sending (i st) count; PrintFailed message_status; Sleep 2]).

(** How a run over a finite list of pass environments stands at its end:
    the loop condition became false, the user chose to stop, or the list
    is used up while the loop is still running. *)
Inductive Ending : Type := Completed | Aborted | Pending.

Record Run : Type := mkRun {
  ending : Ending;
  final : LoopState;
  passes : nat;
  output : list Event
}.

(** [while i <= count: ...] from the state [st]. *)
Fixpoint while_loop (count : Z) (min_delay max_delay : Q)
    (st : LoopState) (env : list PassEnv) : Run :=
  if i st <=? count then
    match env with
    | [] => mkRun Pending st 0 []
    | e :: env' =>
        match loop_pass count min_delay max_delay st e with
        | (Break, st', evs) => mkRun Aborted st' 1 evs
        | (Continue, st', evs) =>
            let r := while_loop count min_delay max_delay st' env' in
            mkRun (ending r) (final r) (S (passes r)) (evs ++ output r)%list
        end
    end
  else mkRun Completed st 0 [].

(** The states the loop is in after each of its passes, in order. *)
Fixpoint loop_states (count : Z) (min_delay max_delay : Q)
    (st : LoopState) (env : list PassEnv) : list LoopState :=
  if i st <=? count then
    match env with
    | [] => []
    | e :: env' =>
        match loop_pass count min_delay max_delay st e with
        | (Break, st', _) => [st']
        | (Continue, st', _) =>
            st' :: loop_states count min_delay max_delay st' env'
        end
    end
  else [].

(** The summary block: the two counts against [count], and the success
    rate in percent when it is printed.  The rate is the value that is
    computed, before [:.1f] rounds it to one decimal for printing. *)
Record Report : Type := mkReport {
  successful : Z * Z;
  failed : Z * Z;
  success_rate : option Q
}.

Definition summary (count : Z) (st : LoopState) : Report :=
  {| successful := (success_count st, count);
     failed := (fail_count st, count);
     success_rate :=
       if success_count st >? 0 then
         Some (inject_Z (success_count st)
               / inject_Z (success_count st + fail_count st) * 100)%Q
       else None |}.

(** The whole function: the loop from [initial_state], then the summary
    (which is reached unless the run is still [Pending]). *)
Definition send_multiple_messages (count : Z) (min_delay max_delay : Q)
    (env : list PassEnv) : Run * option Report :=
  let r := while_loop count min_delay max_delay initial_state env in
  (r, match ending r with
      | Pending => None
      | _ => Some (summary count (final r))
      end).

(** Number of passes that took the last branch (a failure that is not
    retried), read off the output. *)
Fixpoint failed_lines (out : list Event) : Z :=
  match out with
  | [] => 0
  | PrintFailed _ :: out' => 1 + failed_lines out'
  | _ :: out' => failed_lines out'
  end.

(** Number of passes that took the rate-limit branch. *)
Fixpoint rate_limited_lines (out : list Event) : Z :=
  match out with
  | [] => 0
  | PrintRateLimited _ _ :: out' => 1 + rate_limited_lines out'
  | _ :: out' => rate_limited_lines out'
  end.

(** Number of calls of [send_ngl_message]. *)
Fixpoint send_attempts (out : list Event) : Z :=
  match out with
  | [] => 0
  | Sending _ _ :: out' => 1 + send_attempts out'
  | _ :: out' => send_attempts out'
  end.

(** Number of one-second sleeps of the countdown. *)
Fixpoint countdown_seconds (out : list Event) : Z :=
  match out with
  | [] => 0
  | Sleep 1 :: out' => 1 + countdown_seconds out'
  | _ :: out' => countdown_seconds out'
  end.

Definition is_prompt (ev : Event) : bool :=
  match ev with Prompt _ _ => true | _ => false end.

Definition prompted (out : list Event) : bool := existsb is_prompt out.

(** The test that leads a pass into the rate-limit branch: [success] is
    false and ["429" in message_status]. *)
Definition rate_limit_branch (a : Attempt) : bool :=
  let '(success, message_status) := send_ngl_message a in
  negb success && Py.contains "429" message_status.

(** A result that is no rate limit and whose text mentions 429: the body
    of the response broke off after 429 bytes, which [requests] raises as
    a [ChunkedEncodingError] (a [RequestException] that is neither a
    [Timeout] nor a [ConnectionError]). *)
Definition broken_read : Attempt :=
  RaisedRequestException
    "('Connection broken: IncompleteRead(429 bytes read, 83 more expected)', IncompleteRead(429 bytes read, 83 more expected))".

(** A pass environment for an attempt, with the answer left empty. *)
Definition env_of (a : Attempt) : PassEnv := mkPassEnv a "".

(** The counts and the rate (in percent) of the report of a run. *)
Definition report_is (run : Run * option Report)
    (successes failures : Z) (rate : Q) : Prop :=
  ending (fst run) = Completed
  /\ match snd run with
     | Some report =>
         fst (successful report) = successes
         /\ fst (failed report) = failures
         /\ match success_rate report with
            | Some q => (q == rate)%Q
            | None => False
            end
     | None => False
     end.
(** ** More observations on the output of a run *)

(** Number of inter-message delays ([time.sleep(random.uniform(...))]). *)
Fixpoint uniform_sleeps (out : list Event) : Z :=
  match out with
  | [] => 0
  | SleepUniform _ _ :: out' => 1 + uniform_sleeps out'
  | _ :: out' => uniform_sleeps out'
  end.

(** Number of passes in which the user was told that the run stops. *)
Fixpoint stopping_lines (out : list Event) : Z :=
  match out with
  | [] => 0
  | PrintStopping :: out' => 1 + stopping_lines out'
  | _ :: out' => stopping_lines out'
  end.

(** The slots for which a send was started, in the order of the output. *)
Fixpoint slots_sent (out : list Event) : list Z :=
  match out with
  | [] => []
  | Sending slot _ :: out' => slot :: slots_sent out'
  | _ :: out' => slots_sent out'
  end.


(** How the counters stand against each other in a state of the loop. *)
Definition counters_consistent (st : LoopState) : Prop :=
  0 <= success_count st
  /\ 0 <= consecutive_rate_limits st <= fail_count st
  /\ success_count st + 1 <= i st
  /\ i st + consecutive_rate_limits st <= success_count st + 1 + fail_count st.

(** ** The script: the [__main__] block *)

(** A Python [float]: a finite value (the rational it denotes), an
    infinity or a NaN. *)
Inductive PyFloat : Type :=
| Finite (q : Q)
| Infinity (negative : bool)
| NaN.

(** [a < b] on floats; every comparison with a NaN is false. *)
Definition float_lt (a b : PyFloat) : bool :=
  match a, b with
  | NaN, _ | _, NaN => false
  | Finite p, Finite q => negb (Qle_bool q p)
  | Finite _, Infinity negative => negb negative
  | Infinity negative, Finite _ => negative
  | Infinity n1, Infinity n2 => n1 && negb n2
  end.

(** [str.lower] on one character, for the ASCII range. *)
Definition lower_char (c : ascii) : ascii :=
  let n := nat_of_ascii c in
  if ((65 <=? n) && (n <=? 90))%nat then ascii_of_nat (n + 32) else c.

(** [s.lower()]. *)
Fixpoint lower (s : string) : string :=
  match s with
  | EmptyString => EmptyString
  | String c s' => String (lower_char c) (lower s')
  end.

(** [s or default] for two [str]s: the empty string is false. *)
Definition or_else (s default : string) : string :=
  match s with
  | EmptyString => default
  | _ => s
  end.

(** How the script ends: [print(message); exit(status)], an [EOFError]
    out of [input], or the call of [send_multiple_messages] with these
    arguments. *)
Inductive MainResult : Type :=
| Exited (status : Z) (message : string)
| RaisedEOFError
| Calls (username message : string) (count : Z)
        (min_delay max_delay : PyFloat).

Definition default_delays : PyFloat * PyFloat := (Finite 1, Finite 2).

Section Script.

(** [int(s)] and [float(s)] on a [str] are taken as they are: [None] is
    a [ValueError]. *)
Variable py_int : string -> option Z.
Variable py_float : string -> option PyFloat.

(** The delay settings: the two delays chosen and the lines of input left
    ([None]: the input ended).  A [ValueError] leaves the [try] block at
    once, so that after a minimum that is no number the maximum is not
    asked for. *)
Definition read_delays (lines : list string)
  : option (PyFloat * PyFloat * list string) :=
  match lines with
  | [] => None
  | line1 :: lines1 =>
      match py_float (or_else (Py.strip line1) "1") with
      | None => Some (default_delays, lines1)
      | Some min_delay =>
          match lines1 with
          | [] => None
          | line2 :: lines2 =>
              match py_float (or_else (Py.strip line2) "2") with
              | None => Some (default_delays, lines2)
              | Some max_delay =>
                  if float_lt min_delay (Finite (1 # 2))
                     || float_lt max_delay min_delay
                  then Some (default_delays, lines2)
                  else Some (min_delay, max_delay, lines2)
              end
          end
      end
  end.

(** The confirmation and the call. *)
Definition confirm_and_send (target_username message_to_send : string)
    (message_count : Z) (delays : PyFloat * PyFloat) (lines : list string)
  : MainResult * list string :=
  match lines with
  | [] => (RaisedEOFError, [])
  | line :: lines' =>
      let confirm := lower (Py.strip line) in
      if negb (String.eqb confirm "y") then (Exited 0 "Cancelled.", lines')
      else (Calls target_username message_to_send message_count
                  (fst delays) (snd delays), lines')
  end.

(** The script on the lines typed by the user: how it ends, and the lines
    it has not read. *)
Definition main (lines : list string) : MainResult * list string :=
  match lines with
  | [] => (RaisedEOFError, [])
  | line1 :: lines1 =>
      let target_username := Py.strip line1 in
      if String.eqb target_username "" then
        (Exited 1 "Error: Username cannot be empty.", lines1)
      else
        match lines1 with
        | [] => (RaisedEOFError, [])
        | line2 :: lines2 =>
            let message_to_send := Py.strip line2 in
            if String.eqb message_to_send "" then
              (Exited 1 "Error: Message cannot be empty.", lines2)
            else
              match lines2 with
              | [] => (RaisedEOFError, [])
              | line3 :: lines3 =>
                  match py_int (Py.strip line3) with
                  | None =>
                      (Exited 1 "Error: Please enter a valid number.", lines3)
                  | Some message_count =>
                      if message_count <? 1 then
                        (Exited 1 "Error: Count must be at least 1.", lines3)
                      else
                        match read_delays lines3 with
                        | None => (RaisedEOFError, [])
                        | Some (delays, lines5) =>
                            confirm_and_send target_username message_to_send
                                             message_count delays lines5
                        end
                  end
              end
        end
  end.

End Script.

(** Parsers for plain numerals, to run the script on: whole numbers, and
    the same read as floats. *)
Definition numeral_int (s : string) : option Z :=
  option_map Z.of_int (NilZero.int_of_string s).

Definition numeral_float (s : string) : option PyFloat :=
  option_map (fun z => Finite (inject_Z z)) (numeral_int s).

(** ** Transport *)

(** The success flag is the test [status_code == 200]. *)
Lemma send_success_iff (a : Attempt) :
  fst (send_ngl_message a) = true <-> a = Response 200.
Proof.
  split.
  - destruct a as [code | | | e]; simpl; try discriminate.
    destruct (code =? 200) eqn:E200.
    + intros _. apply Z.eqb_eq in E200. now subst.
    + destruct (code =? 429); discriminate.
  - intros ->. reflexivity.
Qed.

(** C6: a response with status 200 is a success, status 429 is the
    rate-limited failure, any other status is the failure that carries the
    code; a timeout, a connection failure and any other request exception
    are failures with their own messages (the last one carrying the
    exception's text); the success flag is true for status 200 only. *)
Theorem C6_transport_classification :
  send_ngl_message (Response 200) = (true, "Success")
  /\ send_ngl_message (Response 429) = (false, "Rate limited (429)")
  /\ (forall code, code <> 200 -> code <> 429 ->
        send_ngl_message (Response code)
        = (false, "Status code: " ++ Py.str code))
  /\ send_ngl_message RaisedTimeout = (false, "Request timeout")
  /\ send_ngl_message RaisedConnectionError = (false, "Connection error")
  /\ (forall e, send_ngl_message (RaisedRequestException e)
               = (false, "Request error: " ++ e))
  /\ (forall a, fst (send_ngl_message a) = true <-> a = Response 200).
Proof.
  repeat split; try reflexivity.
  - intros code H200 H429. simpl.
    apply Z.eqb_neq in H200, H429. now rewrite H200, H429.
  - apply send_success_iff.
  - apply send_success_iff.
Qed.

Lemma C6_transport_classification_witness :
  send_ngl_message (Response 404) = (false, "Status code: 404")
  /\ fst (send_ngl_message (Response 200)) = true.
Proof.
  destruct C6_transport_classification as (_ & _ & Hother & _ & _ & _ & Hflag).
  split.
  - apply (Hother 404); lia.
  - apply (Hflag (Response 200)). reflexivity.
Defined.

(** ** One pass of the loop *)

(** Case analysis on the branch a pass takes. *)
Ltac pass_cases st e :=
  unfold loop_pass, rate_limit_branch;
  destruct (send_ngl_message (attempt e)) as [success message_status];
  destruct success; simpl negb; simpl andb;
  [ | destruct (Py.contains "429" message_status);
      [ destruct (3 <=? consecutive_rate_limits st + 1) eqn:Hthree;
        [ destruct (String.eqb (Py.strip (answer e)) "2") eqn:Hanswer | ]
      | ] ];
  cbn [fst snd i success_count fail_count consecutive_rate_limits].

Section Pass.

Variables (count : Z) (min_delay max_delay : Q).

Lemma countdown_counts (w : Q) :
  failed_lines (countdown w) = 0
  /\ rate_limited_lines (countdown w) = 0
  /\ send_attempts (countdown w) = 0
  /\ prompted (countdown w) = false
  /\ countdown_seconds (countdown w) = Z.of_nat (Z.to_nat (Py.int w)).
Proof.
  unfold countdown, Py.range_down.
  generalize (Py.int w) as n. intros n.
  generalize 0%nat as from.
  induction (Z.to_nat n) as [|k IH]; intros from.
  - repeat split; reflexivity.
  - destruct (IH (S from)) as (Hf & Hr & Hs & Hp & Hc).
    rewrite Nat2Z.inj_succ.
    cbn [seq map flat_map app failed_lines rate_limited_lines
         send_attempts prompted existsb is_prompt orb countdown_seconds].
    unfold prompted in Hp. rewrite Hf, Hr, Hs, Hp, Hc.
    repeat split; lia.
Qed.

(** The slot index stays in the rate-limit branch and moves on by one
    in the two other branches. *)
Lemma pass_index (st : LoopState) (e : PassEnv) :
  i (snd (fst (loop_pass count min_delay max_delay st e)))
  = if rate_limit_branch (attempt e) then i st else i st + 1.
Proof. pass_cases st e; try rewrite Hthree; reflexivity. Qed.

Lemma pass_consecutive (st : LoopState) (e : PassEnv) :
  consecutive_rate_limits (snd (fst (loop_pass count min_delay max_delay st e)))
  = if rate_limit_branch (attempt e)
    then consecutive_rate_limits st + 1 else 0.
Proof. pass_cases st e; try rewrite Hthree; reflexivity. Qed.

Lemma pass_success_count (st : LoopState) (e : PassEnv) :
  success_count (snd (fst (loop_pass count min_delay max_delay st e)))
  = if fst (send_ngl_message (attempt e))
    then success_count st + 1 else success_count st.
Proof. pass_cases st e; try rewrite Hthree; reflexivity. Qed.

Lemma pass_fail_count (st : LoopState) (e : PassEnv) :
  fail_count (snd (fst (loop_pass count min_delay max_delay st e)))
  = if fst (send_ngl_message (attempt e))
    then fail_count st else fail_count st + 1.
Proof. pass_cases st e; try rewrite Hthree; reflexivity. Qed.

Lemma pass_output_counts (st : LoopState) (e : PassEnv) :
  let out := snd (loop_pass count min_delay max_delay st e) in
  send_attempts out = 1
  /\ rate_limited_lines out
     = (if rate_limit_branch (attempt e) then 1 else 0)
  /\ failed_lines out
     = (if fst (send_ngl_message (attempt e)) then 0
        else if rate_limit_branch (attempt e) then 0 else 1)
  /\ prompted out
     = rate_limit_branch (attempt e)
       && (3 <=? consecutive_rate_limits st + 1).
Proof.
  pass_cases st e; try rewrite Hthree; try rewrite Hanswer;
    cbn [snd app send_attempts rate_limited_lines failed_lines
         prompted existsb is_prompt orb];
    try destruct (i st + 1 <=? count);
    try (destruct (countdown_counts
                     (wait_time (consecutive_rate_limits st + 1)))
           as (Hf & Hr & Hs & Hp & _);
         unfold prompted in Hp; rewrite ?Hf, ?Hr, ?Hs, ?Hp);
    repeat split; reflexivity.
Qed.

Lemma pass_flow (st : LoopState) (e : PassEnv) :
  fst (fst (loop_pass count min_delay max_delay st e))
  = if rate_limit_branch (attempt e)
       && (3 <=? consecutive_rate_limits st + 1)
       && String.eqb (Py.strip (answer e)) "2"
    then Break else Continue.
Proof. pass_cases st e; try rewrite Hthree; try rewrite Hanswer; reflexivity. Qed.

End Pass.

(** ** The loop *)

Lemma failed_lines_app (a b : list Event) :
  failed_lines (a ++ b) = failed_lines a + failed_lines b.
Proof.
  induction a as [|ev a IH]; [reflexivity|].
  destruct ev; cbn [app failed_lines]; rewrite ?IH; lia.
Qed.

Lemma rate_limited_lines_app (a b : list Event) :
  rate_limited_lines (a ++ b) = rate_limited_lines a + rate_limited_lines b.
Proof.
  induction a as [|ev a IH]; [reflexivity|].
  destruct ev; cbn [app rate_limited_lines]; rewrite ?IH; lia.
Qed.

Lemma send_attempts_app (a b : list Event) :
  send_attempts (a ++ b) = send_attempts a + send_attempts b.
Proof.
  induction a as [|ev a IH]; [reflexivity|].
  destruct ev; cbn [app send_attempts]; rewrite ?IH; lia.
Qed.

(** What one pass does to the counters, gathered for the induction over
    the run. *)
Lemma pass_step (count : Z) (min_delay max_delay : Q)
    (st : LoopState) (e : PassEnv) :
  let st' := snd (fst (loop_pass count min_delay max_delay st e)) in
  let out := snd (loop_pass count min_delay max_delay st e) in
  success_count st' + fail_count st' = success_count st + fail_count st + 1
  /\ i st' = i st + (success_count st' - success_count st) + failed_lines out
  /\ fail_count st'
     = fail_count st + failed_lines out + rate_limited_lines out
  /\ send_attempts out = 1
  /\ i st <= i st' <= i st + 1
  /\ success_count st <= success_count st'
  /\ fail_count st <= fail_count st'.
Proof.
  cbv zeta.
  destruct (pass_output_counts count min_delay max_delay st e)
    as (Hs & Hr & Hf & _).
  rewrite Hs, Hr, Hf.
  rewrite (pass_index count min_delay max_delay st e).
  rewrite (pass_success_count count min_delay max_delay st e).
  rewrite (pass_fail_count count min_delay max_delay st e).
  unfold rate_limit_branch.
  destruct (send_ngl_message (attempt e)) as [success message_status].
  destruct success; cbn [fst negb andb];
    [ | destruct (Py.contains "429" message_status) ];
    repeat split; lia.
Qed.

(** The state in which a run over [env] from [st] stands, against [st]. *)
Lemma while_loop_counts (count : Z) (min_delay max_delay : Q)
    (env : list PassEnv) :
  forall st,
    let r := while_loop count min_delay max_delay st env in
    success_count (final r) + fail_count (final r)
    = success_count st + fail_count st + Z.of_nat (passes r)
    /\ i (final r)
       = i st + (success_count (final r) - success_count st)
         + failed_lines (output r)
    /\ fail_count (final r)
       = fail_count st + failed_lines (output r)
         + rate_limited_lines (output r)
    /\ send_attempts (output r) = Z.of_nat (passes r)
    /\ (ending r = Completed -> count < i (final r))
    /\ (i st <= count + 1 -> i (final r) <= count + 1)
    /\ success_count st <= success_count (final r)
    /\ fail_count st <= fail_count (final r).
Proof.
  induction env as [|e env IH]; intros st; cbv zeta; cbn [while_loop];
    destruct (i st <=? count) eqn:Hguard;
    try (cbn [ending final passes output failed_lines rate_limited_lines
              send_attempts Z.of_nat];
         apply Z.leb_gt in Hguard || apply Z.leb_le in Hguard;
         repeat split; (discriminate || lia)).
  apply Z.leb_le in Hguard.
  pose proof (pass_step count min_delay max_delay st e) as Hstep.
  cbv zeta in Hstep.
  destruct (loop_pass count min_delay max_delay st e) as [[fl st'] out].
  cbn [fst snd] in Hstep.
  destruct Hstep as (Ht & Hi & Hf & Hs & Hb & Hsc & Hfc).
  destruct fl.
  - specialize (IH st'). cbv zeta in IH.
    destruct IH as (Ht' & Hi' & Hf' & Hs' & He' & Hb' & Hsc' & Hfc').
    cbn [ending final passes output].
    rewrite failed_lines_app, rate_limited_lines_app, send_attempts_app.
    rewrite Nat2Z.inj_succ.
    repeat split; try lia. exact He'.
  - cbn [ending final passes output Z.of_nat Pos.of_succ_nat].
    repeat split; (discriminate || lia).
Qed.

Lemma loop_states_bounded (count : Z) (min_delay max_delay : Q)
    (env : list PassEnv) :
  forall st,
    i st <= count + 1 ->
    Forall (fun s => i s <= count + 1)
           (loop_states count min_delay max_delay st env).
Proof.
  induction env as [|e env IH]; intros st Hst; cbn [loop_states];
    destruct (i st <=? count) eqn:Hguard; try constructor.
  apply Z.leb_le in Hguard.
  pose proof (pass_step count min_delay max_delay st e) as Hstep.
  cbv zeta in Hstep.
  destruct (loop_pass count min_delay max_delay st e) as [[fl st'] out].
  cbn [fst snd] in Hstep.
  destruct Hstep as (_ & _ & _ & _ & Hb & _).
  destruct fl; constructor; try lia; [apply IH; lia | constructor].
Qed.

Lemma last_cons_default {A : Type} (l : list A) :
  forall a d, last (a :: l) d = last l a.
Proof.
  induction l as [|b l IH]; intros a d; [reflexivity|].
  change (last (a :: b :: l) d) with (last (b :: l) d).
  rewrite !IH. reflexivity.
Qed.

(** The run ends in the last of the states it went through. *)
Lemma while_loop_final (count : Z) (min_delay max_delay : Q)
    (env : list PassEnv) :
  forall st,
    final (while_loop count min_delay max_delay st env)
    = last (loop_states count min_delay max_delay st env) st.
Proof.
  induction env as [|e env IH]; intros st; cbn [while_loop loop_states];
    destruct (i st <=? count); try reflexivity.
  destruct (loop_pass count min_delay max_delay st e) as [[fl st'] out].
  destruct fl; cbn [final]; [ | reflexivity ].
  rewrite IH. symmetry. apply last_cons_default.
Qed.

(** Status 200 is the only result with a success flag, and its message
    does not mention 429. *)
Lemma success_message (a : Attempt) :
  fst (send_ngl_message a) = true -> snd (send_ngl_message a) = "Success".
Proof. intros H. apply send_success_iff in H. now subst. Qed.

(** The branch is chosen by the substring test alone. *)
Lemma rate_limit_branch_iff (a : Attempt) :
  rate_limit_branch a = true
  <-> Py.contains "429" (snd (send_ngl_message a)) = true.
Proof.
  unfold rate_limit_branch.
  pose proof (success_message a) as Hmsg.
  destruct (send_ngl_message a) as [success message_status].
  cbn [fst snd] in *. destruct success; cbn [negb andb].
  - rewrite Hmsg by reflexivity. split; discriminate.
  - reflexivity.
Qed.

(** The prefix that the last [except] clause puts before the exception's
    text does not take part in a match of "429". *)
Lemma request_error_contains (e : string) :
  Py.contains "429" ("Request error: " ++ e) = Py.contains "429" e.
Proof. reflexivity. Qed.

(** The status codes an HTTP response can carry (three digits): only 429
    gives a message that mentions 429. *)
Lemma status_message_no_429 (code : Z) :
  100 <= code <= 999 -> code <> 429 ->
  Py.contains "429" ("Status code: " ++ Py.str code) = false.
Proof.
  intros Hrange Hne.
  assert (Hall : forallb (fun k => let c := 100 + Z.of_nat k in
                            (c =? 429)
                            || negb (Py.contains "429"
                                       ("Status code: " ++ Py.str c)))
                         (seq 0 900) = true) by (vm_compute; reflexivity).
  rewrite forallb_forall in Hall.
  specialize (Hall (Z.to_nat (code - 100))).
  cbv zeta in Hall.
  replace (100 + Z.of_nat (Z.to_nat (code - 100))) with code in Hall by lia.
  apply Z.eqb_neq in Hne. rewrite Hne in Hall. cbn [orb] in Hall.
  apply negb_true_iff, Hall, in_seq. lia.
Qed.

(** Which results take the rate-limit branch: status 429 does; the other
    statuses of the three-digit range, a timeout and a connection failure
    do not; a request exception does exactly when its text mentions 429. *)
Lemma rate_limit_branch_by_result :
  rate_limit_branch (Response 429) = true
  /\ rate_limit_branch (Response 200) = false
  /\ (forall code, 100 <= code <= 999 -> code <> 429 ->
        rate_limit_branch (Response code) = false)
  /\ rate_limit_branch RaisedTimeout = false
  /\ rate_limit_branch RaisedConnectionError = false
  /\ (forall e, rate_limit_branch (RaisedRequestException e)
               = Py.contains "429" e).
Proof.
  repeat split; try reflexivity.
  intros code Hrange Hne. unfold rate_limit_branch. cbn [send_ngl_message].
  destruct (code =? 200) eqn:E200; [reflexivity|].
  rewrite (proj2 (Z.eqb_neq code 429) Hne). cbn [negb andb].
  now apply status_message_no_429.
Qed.

(** ** Properties of the specification *)

(** C1, as stated, fails: with [count = 2] and the results status 404,
    status 200 the loop runs past the last slot without any prompt, and it
    ends with one success, not two. *)
Lemma C1_counterexample :
  let r := fst (send_multiple_messages 2 1 2
                  [env_of (Response 404); env_of (Response 200)]) in
  ending r = Completed
  /\ prompted (output r) = false
  /\ success_count (final r) = 1
  /\ success_count (final r) <> 2.
Proof. vm_compute. repeat split; discriminate. Qed.

(** C1, amended: for every list of pass environments and [count >= 1],
    successes plus failures equals the number of passes taken (which is the
    number of send attempts), every pass through the rate-limit branch
    being one of the failures; and when the loop ends by running past the
    last slot, the successes plus the passes that took the last branch of
    the loop (the failure that is printed as failed, counted and not
    retried: the status message has no "429") equal [count], so that there
    are exactly [count] successes when no pass took that branch, and never
    more than [count]. *)
Theorem C1_tally_matches_passes (count : Z) (min_delay max_delay : Q)
    (env : list PassEnv) :
  1 <= count ->
  let r := fst (send_multiple_messages count min_delay max_delay env) in
  success_count (final r) + fail_count (final r) = Z.of_nat (passes r)
  /\ send_attempts (output r) = Z.of_nat (passes r)
  /\ fail_count (final r)
     = failed_lines (output r) + rate_limited_lines (output r)
  /\ (ending r = Completed ->
      success_count (final r) + failed_lines (output r) = count)
  /\ (ending r = Completed -> failed_lines (output r) = 0 ->
      success_count (final r) = count)
  /\ success_count (final r) <= count.
Proof.
  intros Hcount. unfold send_multiple_messages. cbn [fst]. cbv zeta.
  destruct (while_loop_counts count min_delay max_delay env initial_state)
    as (Ht & Hi & Hf & Hs & He & Hb & Hsc & Hfc).
  cbn [initial_state i success_count fail_count] in *.
  assert (Hfl : 0 <= failed_lines
                       (output (while_loop count min_delay max_delay
                                  initial_state env))).
  { generalize (output (while_loop count min_delay max_delay
                          initial_state env)) as out.
    induction out as [|ev out IH]; [reflexivity|].
    destruct ev; cbn [failed_lines]; lia. }
  repeat split; try lia.
  - intros Hend. specialize (He Hend). lia.
  - intros Hend Hnone. specialize (He Hend). lia.
Qed.

Lemma C1_tally_matches_passes_witness :
  let r := fst (send_multiple_messages 3 1 2
                  (map env_of [Response 429; Response 429; Response 200;
                               Response 200; Response 200])) in
  1 <= 3
  /\ success_count (final r) + fail_count (final r) = Z.of_nat (passes r)
  /\ success_count (final r) <= 3.
Proof.
  cbv zeta.
  assert (H : 1 <= 3) by lia.
  split; [exact H|].
  pose proof (C1_tally_matches_passes 3 1 2
                (map env_of [Response 429; Response 429; Response 200;
                             Response 200; Response 200]) H) as T.
  cbv zeta in T. destruct T as (Ht & _ & _ & _ & _ & Hle).
  split; [exact Ht | exact Hle].
Defined.

(** C2, at the input on which the code departs from it: [broken_read] is a
    failure that is not a rate limit, yet a pass on it leaves [i] where it
    was; with [count = 1] the loop therefore sends a second time for
    slot 1. *)
Theorem C2_request_error_mentioning_429_keeps_slot :
  broken_read <> Response 429
  /\ fst (send_ngl_message broken_read) = false
  /\ (forall count min_delay max_delay st ans,
        i (snd (fst (loop_pass count min_delay max_delay st
                       (mkPassEnv broken_read ans))))
        = i st)
  /\ (let r := fst (send_multiple_messages 1 1 2
                      [env_of broken_read; env_of (Response 200)]) in
      passes r = 2%nat
      /\ final r = {| i := 2; success_count := 1; fail_count := 1;
                      consecutive_rate_limits := 0 |}).
Proof.
  split; [discriminate|]. split; [reflexivity|]. split.
  - intros count min_delay max_delay st ans.
    rewrite pass_index. reflexivity.
  - vm_compute. split; reflexivity.
Qed.

(** C3, at the input on which the code departs from it: after a pass on
    [broken_read], a failure that is not a rate limit,
    [consecutive_rate_limits] is one more than before, not 0. *)
Theorem C3_request_error_mentioning_429_counts_as_rate_limit :
  broken_read <> Response 429
  /\ fst (send_ngl_message broken_read) = false
  /\ (forall count min_delay max_delay st ans,
        consecutive_rate_limits
          (snd (fst (loop_pass count min_delay max_delay st
                       (mkPassEnv broken_read ans))))
        = consecutive_rate_limits st + 1)
  /\ consecutive_rate_limits
       (snd (fst (loop_pass 1 1 2 initial_state (env_of broken_read))))
     = 1.
Proof.
  split; [discriminate|]. split; [reflexivity|]. split.
  - intros count min_delay max_delay st ans.
    rewrite pass_consecutive. reflexivity.
  - reflexivity.
Qed.

(** What C2 and C3 say of the results that do not mention 429 holds: on
    status 429 a pass keeps [i] and adds one to [consecutive_rate_limits];
    on every result that fails the substring test (status 200, the other
    three-digit statuses, a timeout, a connection failure, a request
    exception whose text has no 429) it adds one to [i] and sets
    [consecutive_rate_limits] to 0. *)
Lemma pass_by_result (count : Z) (min_delay max_delay : Q)
    (st : LoopState) (e : PassEnv) :
  let st' := snd (fst (loop_pass count min_delay max_delay st e)) in
  (attempt e = Response 429 ->
     i st' = i st
     /\ consecutive_rate_limits st' = consecutive_rate_limits st + 1)
  /\ (rate_limit_branch (attempt e) = false ->
     i st' = i st + 1 /\ consecutive_rate_limits st' = 0).
Proof.
  cbv zeta. rewrite pass_index, pass_consecutive. split.
  - intros ->. split; reflexivity.
  - intros ->. split; reflexivity.
Qed.

(** C9: a pass takes the rate-limit branch (it prints the rate-limit
    lines) exactly when the status message contains "429"; so on
    [broken_read], a failure that is not a rate limit, a pass keeps [i]
    and adds one to [consecutive_rate_limits]. *)
Theorem C9_branch_selected_by_substring :
  (forall count min_delay max_delay st e,
      rate_limited_lines (snd (loop_pass count min_delay max_delay st e)) = 1
      <-> Py.contains "429" (snd (send_ngl_message (attempt e))) = true)
  /\ (exists a,
        a <> Response 429
        /\ fst (send_ngl_message a) = false
        /\ Py.contains "429" (snd (send_ngl_message a)) = true
        /\ forall count min_delay max_delay st ans,
            let st' := snd (fst (loop_pass count min_delay max_delay st
                                   (mkPassEnv a ans))) in
            i st' = i st
            /\ consecutive_rate_limits st' = consecutive_rate_limits st + 1).
Proof.
  split.
  - intros count min_delay max_delay st e.
    destruct (pass_output_counts count min_delay max_delay st e)
      as (_ & Hr & _).
    rewrite Hr, <- rate_limit_branch_iff.
    destruct (rate_limit_branch (attempt e)); split;
      (reflexivity || discriminate).
  - exists broken_read.
    split; [discriminate|]. split; [reflexivity|]. split; [reflexivity|].
    intros count min_delay max_delay st ans. cbv zeta.
    rewrite pass_index, pass_consecutive. split; reflexivity.
Qed.

(** What the code does about the prompt: in every pass it is shown
    exactly when [consecutive_rate_limits], as the pass leaves it, is at
    least 3 (for a pass on status 429: when it was at least 2 before); the
    pass breaks out of the loop exactly when the prompt was shown and the
    answer is "2"; then the run ends there as aborted, whatever results
    were still to come, this pass's attempt being the only one, and the
    summary is produced from the state the pass left. *)
Lemma pass_prompt_and_abort (count : Z) (min_delay max_delay : Q)
    (st : LoopState) (e : PassEnv) (env : list PassEnv) :
  let fl := fst (fst (loop_pass count min_delay max_delay st e)) in
  let st' := snd (fst (loop_pass count min_delay max_delay st e)) in
  let out := snd (loop_pass count min_delay max_delay st e) in
  (prompted out = true <-> 3 <= consecutive_rate_limits st')
  /\ (attempt e = Response 429 ->
      (prompted out = true <-> 3 <= consecutive_rate_limits st + 1))
  /\ (fl = Break <-> prompted out = true /\ Py.strip (answer e) = "2")
  /\ (fl = Break -> i st <= count ->
      while_loop count min_delay max_delay st (e :: env)
      = mkRun Aborted st' 1 out
      /\ send_attempts out = 1)
  /\ (ending (fst (send_multiple_messages count min_delay max_delay env))
      = Aborted ->
      snd (send_multiple_messages count min_delay max_delay env)
      = Some (summary count
                (final (fst (send_multiple_messages
                               count min_delay max_delay env))))).
Proof.
  cbv zeta.
  destruct (pass_output_counts count min_delay max_delay st e)
    as (Hs & _ & _ & Hp).
  split; [ | split; [ | split; [ | split ] ] ].
  - rewrite Hp, pass_consecutive.
    destruct (rate_limit_branch (attempt e)); cbn [andb].
    + apply Z.leb_le.
    + split; [discriminate | lia].
  - intros Ha. rewrite Hp, Ha.
    change (rate_limit_branch (Response 429)) with true. cbn [andb].
    apply Z.leb_le.
  - rewrite pass_flow, Hp.
    destruct (rate_limit_branch (attempt e)
              && (3 <=? consecutive_rate_limits st + 1)); cbn [andb].
    + destruct (String.eqb_spec (Py.strip (answer e)) "2") as [Heq | Hne].
      * split; [now split | reflexivity].
      * split; [discriminate | intros [_ Heq]; contradiction].
    + split; [discriminate | intros [Hfalse _]; discriminate].
  - intros Hbreak Hguard. cbn [while_loop].
    rewrite (proj2 (Z.leb_le _ _) Hguard).
    destruct (loop_pass count min_delay max_delay st e) as [[fl st'] out].
    cbn [fst snd] in *. subst fl. split; [reflexivity | exact Hs].
  - unfold send_multiple_messages. cbn [fst snd]. now intros ->.
Qed.

(** C5, at the input on which the code departs from it: with
    [count = 1], three attempts in a row end in [broken_read], a failure
    that is no rate limit, and the user answers "2".  No attempt of the
    run is rate limited, yet the prompt is shown in the third pass and the
    run ends there as aborted; and from any state with two rate limits in
    a row counted, a pass on [broken_read] shows the prompt. *)
Theorem C5_prompt_after_request_errors_mentioning_429 :
  let env := [env_of broken_read; env_of broken_read;
              mkPassEnv broken_read "2"; env_of (Response 200)] in
  let r := fst (send_multiple_messages 1 1 2 env) in
  Forall (fun e => attempt e <> Response 429
                   /\ fst (send_ngl_message (attempt e)) = false)
         (firstn 3 env)
  /\ prompted (output r) = true
  /\ ending r = Aborted
  /\ passes r = 3%nat
  /\ final r = {| i := 1; success_count := 0; fail_count := 3;
                  consecutive_rate_limits := 3 |}
  /\ (forall count min_delay max_delay slot successes failures ans,
        prompted
          (snd (loop_pass count min_delay max_delay
                  {| i := slot; success_count := successes;
                     fail_count := failures;
                     consecutive_rate_limits := 2 |}
                  (mkPassEnv broken_read ans)))
        = true).
Proof.
  cbv zeta. split.
  { repeat constructor; discriminate. }
  split; [vm_compute; reflexivity|].
  split; [vm_compute; reflexivity|].
  split; [vm_compute; reflexivity|].
  split; [vm_compute; reflexivity|].
  intros count min_delay max_delay slot successes failures ans.
  destruct (pass_output_counts count min_delay max_delay
              {| i := slot; success_count := successes;
                 fail_count := failures; consecutive_rate_limits := 2 |}
              (mkPassEnv broken_read ans)) as (_ & _ & _ & Hp).
  rewrite Hp. reflexivity.
Qed.

(** C8: for every list of pass environments and [count >= 1], [i] is at
    most [count + 1] at the start, after every pass, and in the state in
    which the run ends. *)
Theorem C8_index_never_exceeds_count_plus_1 (count : Z)
    (min_delay max_delay : Q) (env : list PassEnv) :
  1 <= count ->
  Forall (fun s => i s <= count + 1)
         (initial_state
            :: loop_states count min_delay max_delay initial_state env)
  /\ i (final (fst (send_multiple_messages count min_delay max_delay env)))
     <= count + 1.
Proof.
  intros Hcount.
  assert (Hinit : i initial_state <= count + 1) by (cbn [initial_state i]; lia).
  split.
  - constructor; [exact Hinit|]. now apply loop_states_bounded.
  - unfold send_multiple_messages. cbn [fst].
    now apply while_loop_counts.
Qed.

Lemma C8_index_never_exceeds_count_plus_1_witness :
  1 <= 2
  /\ Forall (fun s => i s <= 2 + 1)
            (initial_state
               :: loop_states 2 1 2 initial_state
                    [env_of (Response 404); env_of (Response 200)]).
Proof.
  assert (H : 1 <= 2) by lia.
  split; [exact H|].
  exact (proj1 (C8_index_never_exceeds_count_plus_1 2 1 2
                  [env_of (Response 404); env_of (Response 200)] H)).
Defined.

(** ** The backoff wait *)

Lemma uncapped_wait_time_mono (n m : Z) :
  n <= m -> (uncapped_wait_time n <= uncapped_wait_time m)%Q.
Proof.
  intros Hnm. unfold uncapped_wait_time, base_wait_time.
  apply Qmult_le_l; [reflexivity|].
  apply Qpower_le_compat_l; [lia | discriminate].
Qed.

Lemma uncapped_wait_time_pos (n : Z) : (0 < uncapped_wait_time n)%Q.
Proof.
  unfold uncapped_wait_time, base_wait_time.
  apply Qmult_lt_0_compat; [reflexivity|].
  apply Qpower_0_lt. reflexivity.
Qed.

Lemma wait_time_pos (n : Z) : (0 < wait_time n)%Q.
Proof.
  unfold wait_time. apply Q.min_glb_lt; [apply uncapped_wait_time_pos | reflexivity].
Qed.

(** From the seventh rate limit in a row on the product is above 300,
    up to the sixth it is below. *)
Lemma uncapped_wait_time_300 (n : Z) :
  (300 < uncapped_wait_time n)%Q <-> 7 <= n.
Proof.
  split.
  - intros Hlt. destruct (Z_le_gt_dec 7 n) as [Hle | Hgt]; [exact Hle|].
    exfalso. apply (Qlt_irrefl 300).
    apply Qlt_le_trans with (1 := Hlt).
    apply Qle_trans with (uncapped_wait_time 6).
    + apply uncapped_wait_time_mono. lia.
    + vm_compute. discriminate.
  - intros Hle.
    apply Qlt_le_trans with (uncapped_wait_time 7).
    + vm_compute. reflexivity.
    + now apply uncapped_wait_time_mono.
Qed.

(** C4, as stated, fails: at the sixth rate limit in a row the wait is
    [30 * 1.5^5 = 227.8125], below the cap and not 300; and at the ninth
    the product is [30 * 1.5^8 = 768.8671875], not about 1706. *)
Lemma C4_counterexample :
  (wait_time 6 == 3645 # 16)%Q
  /\ ~ (wait_time 6 == 300)%Q
  /\ (uncapped_wait_time 9 == 98415 # 128)%Q
  /\ (uncapped_wait_time 9 < 769)%Q.
Proof.
  repeat split; vm_compute; (reflexivity || discriminate).
Qed.

(** The power [1.5 ** k] is within the range of a float, below [2^1024],
    exactly up to the exponent 1750; from 1751 on Python raises an
    [OverflowError]. *)
Lemma power_in_float_range (k : Z) :
  ((3 # 2) ^ k < 2 ^ 1024)%Q <-> k <= 1750.
Proof.
  split.
  - intros Hlt. destruct (Z_le_gt_dec k 1750) as [Hle | Hgt]; [exact Hle|].
    exfalso. apply (Qlt_irrefl (2 ^ 1024)).
    apply Qle_lt_trans with (2 := Hlt).
    apply Qle_trans with ((3 # 2) ^ 1751)%Q.
    + vm_compute. discriminate.
    + apply Qpower_le_compat_l; [lia | discriminate].
  - intros Hle.
    apply Qle_lt_trans with ((3 # 2) ^ 1750)%Q.
    + apply Qpower_le_compat_l; [exact Hle | discriminate].
    + vm_compute. reflexivity.
Qed.

(** C4, amended: for every [n] from 1 to 1751 (the rate limits in a row
    for which [1.5 ** (n - 1)] is within the range of a float; from 1752
    on the power overflows and the code raises an [OverflowError]), the
    wait is [min(30 * 1.5^(n-1), 300)]; it is non-decreasing in [n] and at
    most 300 there; the waits at 1, 2, 3 and 6 are 30, 45, 67.5 and
    227.8125, and the wait at 7 is 300; the wait is below the product only
    when the product exceeds 300, which is from [n = 7] on (at 9 the
    product 768.8671875 gives 300). *)
Theorem C4_backoff_wait_time :
  (forall n, 1 <= n <= 1751 ->
     (wait_time n == Qmin (30 * (3 # 2) ^ (n - 1)) 300)%Q)
  /\ (forall n m, 1 <= n -> n <= m -> m <= 1751 ->
        (wait_time n <= wait_time m)%Q)
  /\ (forall n, 1 <= n <= 1751 -> (wait_time n <= 300)%Q)
  /\ (wait_time 1 == 30)%Q
  /\ (wait_time 2 == 45)%Q
  /\ (wait_time 3 == 135 # 2)%Q
  /\ (wait_time 6 == 3645 # 16)%Q
  /\ (wait_time 7 == 300)%Q
  /\ (forall n, 1 <= n <= 1751 ->
        ((wait_time n < uncapped_wait_time n)%Q
         <-> (300 < uncapped_wait_time n)%Q))
  /\ (forall n, 1 <= n <= 1751 ->
        ((300 < uncapped_wait_time n)%Q <-> 7 <= n))
  /\ (forall n, 1 <= n -> n <= 6 ->
        (wait_time n == uncapped_wait_time n)%Q)
  /\ (forall n, 7 <= n <= 1751 -> (wait_time n == 300)%Q)
  /\ (uncapped_wait_time 9 == 98415 # 128)%Q
  /\ (wait_time 9 == 300)%Q
  /\ (forall n, 1 <= n ->
        (((3 # 2) ^ (n - 1) < 2 ^ 1024)%Q <-> n <= 1751)).
Proof.
  assert (Hcap : forall n, (wait_time n < uncapped_wait_time n)%Q
                           <-> (300 < uncapped_wait_time n)%Q).
  { intros n. unfold wait_time.
    destruct (Qlt_le_dec 300 (uncapped_wait_time n)) as [Hlt | Hle].
    - rewrite Q.min_r by now apply Qlt_le_weak. tauto.
    - rewrite Q.min_l by exact Hle. split; intros Habs; exfalso.
      + now apply (Qlt_irrefl (uncapped_wait_time n)).
      + apply (Qlt_irrefl 300). now apply Qlt_le_trans with (1 := Habs).
  }
  split; [ intros n _; reflexivity | ].
  split; [ intros n m _ Hnm _; unfold wait_time;
           apply Q.min_le_compat_r; now apply uncapped_wait_time_mono | ].
  split; [ intros n _; apply Q.le_min_r | ].
  do 5 (split; [ vm_compute; reflexivity | ]).
  split; [ intros n _; apply Hcap | ].
  split; [ intros n _; apply uncapped_wait_time_300 | ].
  split.
  { intros n _ Hn. unfold wait_time. apply Q.min_l.
    apply Qnot_lt_le. rewrite uncapped_wait_time_300. lia. }
  split.
  { intros n (Hn & _). unfold wait_time. apply Q.min_r.
    apply Qlt_le_weak. now apply uncapped_wait_time_300. }
  split; [ vm_compute; reflexivity | ].
  split; [ vm_compute; reflexivity | ].
  intros n _. rewrite power_in_float_range. lia.
Qed.

Lemma C4_backoff_wait_time_witness :
  1 <= 4 /\ 4 <= 8 /\ 8 <= 1751
  /\ (wait_time 4 <= wait_time 8)%Q
  /\ (wait_time 4 == uncapped_wait_time 4)%Q
  /\ (wait_time 8 == 300)%Q.
Proof.
  destruct C4_backoff_wait_time
    as (_ & Hmono & _ & _ & _ & _ & _ & _ & _ & _ & Hbelow & Habove & _).
  assert (H1 : 1 <= 4) by lia.
  assert (H2 : 4 <= 8) by lia.
  assert (H3 : 8 <= 1751) by lia.
  split; [exact H1|]. split; [exact H2|]. split; [exact H3|].
  split; [apply (Hmono 4 8 H1 H2 H3)|].
  split; [apply (Hbelow 4); lia | apply (Habove 8); lia].
Defined.

(** ** The countdown *)

(** On a value that is not negative [int] is the floor. *)
Lemma int_floor (x : Q) : (0 <= x)%Q -> Py.int x = Qfloor x.
Proof.
  destruct x as [num den]. unfold Qle, Py.int, Qfloor. cbn [Qnum Qden].
  intros Hnum. apply Z.quot_div_nonneg; lia.
Qed.

Lemma countdown_seconds_app (a b : list Event) :
  countdown_seconds (a ++ b) = countdown_seconds a + countdown_seconds b.
Proof.
  induction a as [|ev a IH]; [reflexivity|].
  destruct ev as [ | | | | | | | seconds | | ];
    cbn [app countdown_seconds]; rewrite ?IH; try lia.
  destruct seconds as [|[p|p|]|p]; rewrite ?IH; lia.
Qed.

(** The one-second sleeps of a pass: none unless the pass takes the
    rate-limit branch and does not break, and then [int(wait_time)]. *)
Lemma pass_countdown_seconds (count : Z) (min_delay max_delay : Q)
    (st : LoopState) (e : PassEnv) :
  countdown_seconds (snd (loop_pass count min_delay max_delay st e))
  = if rate_limit_branch (attempt e) then
      match fst (fst (loop_pass count min_delay max_delay st e)) with
      | Continue => Py.int (wait_time (consecutive_rate_limits st + 1))
      | Break => 0
      end
    else 0.
Proof.
  assert (Hw : forall n, countdown_seconds (countdown (wait_time n))
                         = Py.int (wait_time n)).
  { intros n.
    destruct (countdown_counts (wait_time n)) as (_ & _ & _ & _ & Hc).
    rewrite Hc, int_floor by apply Qlt_le_weak, wait_time_pos.
    apply Z2Nat.id.
    rewrite <- (Qfloor_Z 0). apply Qfloor_resp_le.
    apply Qlt_le_weak, wait_time_pos. }
  pass_cases st e; try rewrite Hthree; try rewrite Hanswer;
    cbn [fst snd app countdown_seconds];
    try destruct (i st + 1 <=? count);
    rewrite ?Hw; reflexivity.
Qed.

(** C10: a pass that takes the rate-limit branch and does not break
    sleeps one second [floor(wait_time)] times, which is at most
    [wait_time] and strictly less whenever [wait_time] is not a whole
    number; at the third rate limit in a row [wait_time] is 67.5 and the
    pass sleeps 67 times. *)
Theorem C10_countdown_truncates (count : Z) (min_delay max_delay : Q)
    (st : LoopState) (e : PassEnv) :
  let fl := fst (fst (loop_pass count min_delay max_delay st e)) in
  let st' := snd (fst (loop_pass count min_delay max_delay st e)) in
  let out := snd (loop_pass count min_delay max_delay st e) in
  let wait := wait_time (consecutive_rate_limits st') in
  (rate_limited_lines out = 1 -> fl = Continue ->
     countdown_seconds out = Qfloor wait
     /\ (inject_Z (countdown_seconds out) <= wait)%Q
     /\ (~ (inject_Z (Qfloor wait) == wait)%Q ->
         (inject_Z (countdown_seconds out) < wait)%Q))
  /\ (attempt e = Response 429 -> consecutive_rate_limits st = 2 ->
      fl = Continue ->
      (wait == 135 # 2)%Q /\ countdown_seconds out = 67).
Proof.
  cbv zeta.
  destruct (pass_output_counts count min_delay max_delay st e)
    as (_ & Hr & _).
  rewrite Hr, pass_countdown_seconds, pass_consecutive.
  split.
  - destruct (rate_limit_branch (attempt e)); [ | discriminate ].
    intros _ ->.
    rewrite int_floor by apply Qlt_le_weak, wait_time_pos.
    split; [reflexivity|]. split; [apply Qfloor_le|].
    intros Hfrac.
    destruct (proj1 (Qle_lteq _ _)
                (Qfloor_le (wait_time (consecutive_rate_limits st + 1))))
      as [Hlt | Heq]; [exact Hlt | contradiction].
  - intros Ha Hc ->. rewrite Ha, Hc.
    change (rate_limit_branch (Response 429)) with true. cbv iota.
    split; vm_compute; reflexivity.
Qed.

Lemma C10_countdown_truncates_witness :
  let st := {| i := 1; success_count := 0; fail_count := 2;
               consecutive_rate_limits := 2 |} in
  let e := mkPassEnv (Response 429) "1" in
  countdown_seconds (snd (loop_pass 3 1 2 st e)) = 67
  /\ (inject_Z (countdown_seconds (snd (loop_pass 3 1 2 st e)))
      < wait_time 3)%Q.
Proof.
  cbv zeta.
  pose (st := {| i := 1; success_count := 0; fail_count := 2;
                 consecutive_rate_limits := 2 |}).
  pose (e := mkPassEnv (Response 429) "1").
  destruct (C10_countdown_truncates 3 1 2 st e) as (Hfloor & Hthird).
  assert (Hflow : fst (fst (loop_pass 3 1 2 st e)) = Continue)
    by reflexivity.
  fold st e. split.
  - apply (Hthird eq_refl eq_refl Hflow).
  - apply (Hfloor eq_refl Hflow). vm_compute. discriminate.
Defined.

(** ** The summary *)

(** C7, as stated, fails: with [count = 1] and the result status 404 the
    run ends with no success and one failure, so that successes plus
    failures is not zero, and the report has no rate. *)
Lemma C7_counterexample :
  let r := fst (send_multiple_messages 1 1 2 [env_of (Response 404)]) in
  let report := snd (send_multiple_messages 1 1 2 [env_of (Response 404)]) in
  ending r = Completed
  /\ success_count (final r) = 0
  /\ fail_count (final r) = 1
  /\ success_count (final r) + fail_count (final r) <> 0
  /\ option_map success_rate report = Some None.
Proof. vm_compute. repeat split; discriminate. Qed.

(** C7, amended: a run that has left the loop produces the report with
    the two counts against [count]; the report has the success rate,
    [successes / (successes + failures)] in percent, whenever there is at
    least one success (the denominator is then positive), and has no rate
    when there is none. *)
Theorem C7_success_rate_when_some_success (count : Z)
    (min_delay max_delay : Q) (env : list PassEnv) :
  let r := fst (send_multiple_messages count min_delay max_delay env) in
  let successes := success_count (final r) in
  let failures := fail_count (final r) in
  0 <= successes /\ 0 <= failures
  /\ (ending r <> Pending ->
      exists report,
        snd (send_multiple_messages count min_delay max_delay env)
        = Some report
        /\ successful report = (successes, count)
        /\ failed report = (failures, count)
        /\ (0 < successes ->
            0 < successes + failures
            /\ success_rate report
               = Some (inject_Z successes
                       / inject_Z (successes + failures) * 100)%Q)
        /\ (successes = 0 -> success_rate report = None)).
Proof.
  cbv zeta. unfold send_multiple_messages. cbn [fst snd].
  destruct (while_loop_counts count min_delay max_delay env initial_state)
    as (_ & _ & _ & _ & _ & _ & Hsc & Hfc).
  cbn [initial_state success_count fail_count] in Hsc, Hfc.
  split; [exact Hsc|]. split; [exact Hfc|].
  intros Hend.
  exists (summary count
            (final (while_loop count min_delay max_delay initial_state env))).
  split; [ destruct (ending _); [reflexivity | reflexivity | contradiction] | ].
  split; [reflexivity|]. split; [reflexivity|].
  unfold summary. cbn [success_rate]. split.
  - intros Hpos. split; [lia|].
    now rewrite (proj2 (Z.gtb_lt _ _) Hpos).
  - intros ->. reflexivity.
Qed.

Lemma C7_success_rate_when_some_success_witness :
  let rep := snd (send_multiple_messages 3 1 2
                    (map env_of [Response 429; Response 429; Response 200;
                                 Response 200; Response 200])) in
  option_map success_rate rep = Some (Some (300 # 5)).
Proof.
  cbv zeta.
  destruct (C7_success_rate_when_some_success 3 1 2
              (map env_of [Response 429; Response 429; Response 200;
                           Response 200; Response 200]))
    as (_ & _ & Hrep).
  destruct Hrep as (report & Heq & _ & _ & Hrate & _); [discriminate|].
  rewrite Heq. cbn [option_map].
  destruct Hrate as (_ & ->); [reflexivity|].
  reflexivity.
Defined.

(** ** The scenarios of the specification *)

Example scenario_single_success :
  passes (fst (send_multiple_messages 1 1 2 [env_of (Response 200)])) = 1%nat
  /\ report_is (send_multiple_messages 1 1 2 [env_of (Response 200)])
               1 0 100.
Proof. vm_compute. repeat split. Qed.

Example scenario_two_rate_limits_then_three_successes :
  report_is (send_multiple_messages 3 1 2
               (map env_of [Response 429; Response 429; Response 200;
                            Response 200; Response 200]))
            3 2 60.
Proof. vm_compute. repeat split. Qed.

Example scenario_failure_then_success :
  i (final (fst (send_multiple_messages 2 1 2
                   [env_of (Response 404); env_of (Response 200)]))) = 3
  /\ report_is (send_multiple_messages 2 1 2
                  [env_of (Response 404); env_of (Response 200)])
               1 1 50.
Proof. vm_compute. repeat split. Qed.

(** ** Further properties of the loop *)

Lemma uniform_sleeps_app (a b : list Event) :
  uniform_sleeps (a ++ b) = uniform_sleeps a + uniform_sleeps b.
Proof.
  induction a as [|ev a IH]; [reflexivity|].
  destruct ev; cbn [app uniform_sleeps]; rewrite ?IH; lia.
Qed.

Lemma stopping_lines_app (a b : list Event) :
  stopping_lines (a ++ b) = stopping_lines a + stopping_lines b.
Proof.
  induction a as [|ev a IH]; [reflexivity|].
  destruct ev; cbn [app stopping_lines]; rewrite ?IH; lia.
Qed.

Lemma slots_sent_app (a b : list Event) :
  slots_sent (a ++ b) = (slots_sent a ++ slots_sent b)%list.
Proof.
  induction a as [|ev a IH]; [reflexivity|].
  destruct ev; cbn [app slots_sent]; rewrite ?IH; reflexivity.
Qed.

Lemma countdown_quiet (w : Q) :
  uniform_sleeps (countdown w) = 0
  /\ stopping_lines (countdown w) = 0
  /\ slots_sent (countdown w) = [].
Proof.
  unfold countdown.
  rewrite uniform_sleeps_app, stopping_lines_app, slots_sent_app.
  induction (Py.range_down (Py.int w)) as [|k l IH]; [now repeat split|].
  destruct IH as (Hu & Hs & Hl).
  cbn [flat_map app uniform_sleeps stopping_lines slots_sent] in *.
  now repeat split.
Qed.

(** The rest of what a pass prints: one send, for the slot [i]; the
    stopping line exactly when it breaks; the inter-message delay exactly
    after a success that is not on the last slot. *)
Lemma pass_output_more (count : Z) (min_delay max_delay : Q)
    (st : LoopState) (e : PassEnv) :
  let fl := fst (fst (loop_pass count min_delay max_delay st e)) in
  let out := snd (loop_pass count min_delay max_delay st e) in
  slots_sent out = [i st]
  /\ stopping_lines out = match fl with Break => 1 | Continue => 0 end
  /\ uniform_sleeps out
     = if fst (send_ngl_message (attempt e)) && (i st + 1 <=? count)
       then 1 else 0.
Proof.
  pass_cases st e; try rewrite Hthree; try rewrite Hanswer;
    cbn [fst snd app slots_sent stopping_lines uniform_sleeps andb];
    try destruct (i st + 1 <=? count);
    rewrite ?slots_sent_app, ?stopping_lines_app, ?uniform_sleeps_app;
    cbn [fst snd app slots_sent stopping_lines uniform_sleeps];
    try (destruct (countdown_quiet
                     (wait_time (consecutive_rate_limits st + 1)))
           as (Hu & Hs & Hl); rewrite ?Hu, ?Hs, ?Hl);
    repeat split; reflexivity.
Qed.

(** From the first rate limit in a row on, the countdown runs for at
    least 30 and at most 300 whole seconds. *)
Lemma countdown_length_bounds (n : Z) :
  1 <= n -> 30 <= Py.int (wait_time n) <= 300.
Proof.
  intros Hn.
  rewrite int_floor by apply Qlt_le_weak, wait_time_pos.
  split.
  - rewrite <- (Qfloor_Z 30). apply Qfloor_resp_le.
    unfold wait_time. apply Q.min_glb; [ | discriminate ].
    apply Qle_trans with (uncapped_wait_time 1).
    + vm_compute. discriminate.
    + now apply uncapped_wait_time_mono.
  - rewrite <- (Qfloor_Z 300). apply Qfloor_resp_le.
    unfold wait_time. apply Q.le_min_r.
Qed.

(** Everything a pass does, in terms of the branch it takes. *)
Lemma pass_facts (count : Z) (min_delay max_delay : Q)
    (st : LoopState) (e : PassEnv) :
  forall fl st' out,
    loop_pass count min_delay max_delay st e = (fl, st', out) ->
    let ok := fst (send_ngl_message (attempt e)) in
    let limited := rate_limit_branch (attempt e) in
    (ok = true -> limited = false)
    /\ i st' = (if limited then i st else i st + 1)
    /\ consecutive_rate_limits st'
       = (if limited then consecutive_rate_limits st + 1 else 0)
    /\ success_count st'
       = (if ok then success_count st + 1 else success_count st)
    /\ fail_count st' = (if ok then fail_count st else fail_count st + 1)
    /\ fl = (if limited && (3 <=? consecutive_rate_limits st + 1)
                && String.eqb (Py.strip (answer e)) "2"
             then Break else Continue)
    /\ rate_limited_lines out = (if limited then 1 else 0)
    /\ stopping_lines out = match fl with Break => 1 | Continue => 0 end
    /\ slots_sent out = [i st]
    /\ uniform_sleeps out = (if ok && (i st + 1 <=? count) then 1 else 0)
    /\ countdown_seconds out
       = (if limited then
            match fl with
            | Continue => Py.int (wait_time (consecutive_rate_limits st + 1))
            | Break => 0
            end
          else 0).
Proof.
  intros fl st' out Hpass. cbv zeta.
  pose proof (pass_index count min_delay max_delay st e) as Hi.
  pose proof (pass_consecutive count min_delay max_delay st e) as Hc.
  pose proof (pass_success_count count min_delay max_delay st e) as Hsc.
  pose proof (pass_fail_count count min_delay max_delay st e) as Hfc.
  pose proof (pass_flow count min_delay max_delay st e) as Hfl.
  pose proof (pass_countdown_seconds count min_delay max_delay st e) as Hcd.
  destruct (pass_output_counts count min_delay max_delay st e)
    as (_ & Hr & _ & _).
  destruct (pass_output_more count min_delay max_delay st e)
    as (Hslots & Hstop & Hu).
  rewrite Hpass in *. cbn [fst snd] in *.
  repeat split; try assumption.
  unfold rate_limit_branch.
  destruct (send_ngl_message (attempt e)) as [ok msg]. cbn [fst].
  now intros ->.
Qed.

(** When a pass breaks, it is a rate-limit pass that reached the third
    rate limit in a row. *)
Lemma break_cases (limited : bool) (hits : Z) (ans : string) :
  (if limited && (3 <=? hits) && String.eqb (Py.strip ans) "2"
   then Break else Continue) = Break ->
  limited = true /\ 3 <= hits.
Proof.
  destruct limited; cbn [andb]; [ | discriminate ].
  destruct (3 <=? hits) eqn:Hthree; cbn [andb]; [ | discriminate ].
  intros _. split; [reflexivity | now apply Z.leb_le].
Qed.

(** Invariants of a run from any state in which the rate-limit counter
    is not negative. *)
Lemma while_loop_more (count : Z) (min_delay max_delay : Q)
    (env : list PassEnv) :
  forall st,
    0 <= consecutive_rate_limits st ->
    let r := while_loop count min_delay max_delay st env in
    let out := output r in
    0 <= consecutive_rate_limits (final r)
    /\ consecutive_rate_limits (final r)
       <= consecutive_rate_limits st + Z.of_nat (passes r)
    /\ i st <= i (final r)
    /\ (ending r = Aborted ->
        3 <= consecutive_rate_limits (final r) /\ i (final r) <= count)
    /\ stopping_lines out
       = match ending r with Aborted => 1 | _ => 0 end
    /\ 30 * (rate_limited_lines out - stopping_lines out)
       <= countdown_seconds out
       <= 300 * (rate_limited_lines out - stopping_lines out)
    /\ (ending r = Pending ->
        passes r = List.length env /\ i (final r) <= count)
    /\ (passes r <= List.length env)%nat
    /\ uniform_sleeps out <= success_count (final r) - success_count st
    /\ uniform_sleeps out <= Z.max 0 (count - i st)
    /\ success_count (final r) - success_count st - 1 <= uniform_sleeps out
    /\ (i (final r) <= count \/ count < i st ->
        success_count (final r) - success_count st <= uniform_sleeps out).
Proof.
  induction env as [|e env IH]; intros st Hcrl; cbv zeta; cbn [while_loop];
    destruct (i st <=? count) eqn:Hguard;
    try (cbn [ending final passes output rate_limited_lines stopping_lines
              countdown_seconds uniform_sleeps List.length Z.of_nat];
         apply Z.leb_gt in Hguard || apply Z.leb_le in Hguard;
         repeat split; (discriminate || lia)).
  apply Z.leb_le in Hguard.
  destruct (loop_pass count min_delay max_delay st e) as [[fl st'] out]
    eqn:Hpass.
  destruct (pass_facts count min_delay max_delay st e fl st' out Hpass)
    as (Hok & Hi & Hc & Hsc & Hfc & Hfl & Hrl & Hstop & _ & Hu & Hcd).
  cbv zeta in Hok.
  pose proof (countdown_length_bounds (consecutive_rate_limits st + 1))
    as Hwait.
  destruct fl.
  - assert (Hcrl' : 0 <= consecutive_rate_limits st').
    { rewrite Hc. destruct (rate_limit_branch (attempt e)); lia. }
    specialize (IH st' Hcrl'). cbv zeta in IH.
    destruct IH as (H1 & H2 & H3 & H4 & H5 & H6 & H7 & H8 & H9 & H10
                    & H11 & H12).
    cbn [ending final passes output List.length].
    rewrite rate_limited_lines_app, stopping_lines_app,
      countdown_seconds_app, uniform_sleeps_app, Nat2Z.inj_succ.
    rewrite Hrl, Hstop, Hu, Hcd.
    rewrite H5 in *.
    destruct (fst (send_ngl_message (attempt e))) eqn:Eok;
      [ rewrite (Hok eq_refl) in * | ];
      destruct (rate_limit_branch (attempt e)) eqn:Elim;
      destruct (i st + 1 <=? count) eqn:Enext; cbn [andb];
      try apply Z.leb_le in Enext; try apply Z.leb_gt in Enext;
      (split; [lia|]); (split; [lia|]); (split; [lia|]);
      (split; [exact (fun Hend => match H4 Hend with
                                  | conj Ha Hb => conj Ha Hb end)|]);
      (split; [reflexivity|]);
      (split; [destruct (ending _); lia|]);
      (split; [intros Hend; destruct (H7 Hend); split; [congruence | lia]|]);
      (split; [lia|]); repeat split; lia.
  - destruct (break_cases _ _ _ (eq_sym Hfl)) as (Elim & Hthree).
    rewrite Elim in *.
    assert (Eok : fst (send_ngl_message (attempt e)) = false).
    { destruct (fst (send_ngl_message (attempt e))); [ | reflexivity ].
      now specialize (Hok eq_refl). }
    rewrite Eok in *. cbn [andb] in Hu.
    cbn [ending final passes output List.length Z.of_nat Pos.of_succ_nat].
    rewrite Hrl, Hstop, Hu, Hcd.
    repeat split; (discriminate || lia).
Qed.

(** The slots sent for, from any state: one per pass, none below the
    starting slot or above [count], in non-decreasing order. *)
Lemma while_loop_slots (count : Z) (min_delay max_delay : Q)
    (env : list PassEnv) :
  forall st,
    let r := while_loop count min_delay max_delay st env in
    List.length (slots_sent (output r)) = passes r
    /\ Forall (fun slot => i st <= slot <= count) (slots_sent (output r))
    /\ StronglySorted Z.le (slots_sent (output r)).
Proof.
  induction env as [|e env IH]; intros st; cbv zeta; cbn [while_loop];
    destruct (i st <=? count) eqn:Hguard;
    try (cbn [output passes slots_sent List.length];
         repeat split; constructor).
  apply Z.leb_le in Hguard.
  destruct (loop_pass count min_delay max_delay st e) as [[fl st'] out]
    eqn:Hpass.
  destruct (pass_facts count min_delay max_delay st e fl st' out Hpass)
    as (_ & Hi & _ & _ & _ & _ & _ & _ & Hslots & _).
  assert (Hmono : i st <= i st')
    by (rewrite Hi; destruct (rate_limit_branch (attempt e)); lia).
  destruct fl; cbn [output passes].
  - destruct (IH st') as (Hlen & Hall & Hsorted).
    rewrite slots_sent_app, Hslots. cbn [app List.length].
    assert (Hall' : Forall (fun slot => i st <= slot <= count)
                           (slots_sent
                              (output (while_loop count min_delay max_delay
                                         st' env)))).
    { eapply Forall_impl; [ | exact Hall ]. cbv beta. intros slot Hs. lia. }
    split; [now rewrite Hlen|]. split.
    + constructor; [lia | exact Hall'].
    + constructor; [exact Hsorted|].
      eapply Forall_impl; [ | exact Hall' ]. cbv beta. intros slot Hs. lia.
  - rewrite Hslots. cbn [List.length].
    split; [reflexivity|]. split; repeat constructor; lia.
Qed.



(** A run on results that are all sent into the rate-limit branch, with
    no answer "2", stays on its slot. *)
Lemma while_loop_only_rate_limits (count : Z) (min_delay max_delay : Q)
    (env : list PassEnv) :
  forall st,
    Forall (fun e => rate_limit_branch (attempt e) = true
                     /\ Py.strip (answer e) <> "2") env ->
    i st <= count ->
    let r := while_loop count min_delay max_delay st env in
    ending r = Pending
    /\ passes r = List.length env
    /\ final r
       = {| i := i st;
            success_count := success_count st;
            fail_count := fail_count st + Z.of_nat (List.length env);
            consecutive_rate_limits
            := consecutive_rate_limits st + Z.of_nat (List.length env) |}.
Proof.
  induction env as [|e env IH]; intros st Hall Hi; cbv zeta;
    cbn [while_loop]; rewrite (proj2 (Z.leb_le _ _) Hi).
  - cbn [ending passes final List.length Z.of_nat].
    rewrite !Z.add_0_r. now destruct st.
  - inversion Hall as [ | e0 env0 (He & Hans) Hrest ]; subst.
    destruct (loop_pass count min_delay max_delay st e) as [[fl st'] out]
      eqn:Hpass.
    destruct (pass_facts count min_delay max_delay st e fl st' out Hpass)
      as (Hok & Hi' & Hc & Hsc & Hfc & Hfl & _).
    cbv zeta in Hok. rewrite He in *.
    assert (Eok : fst (send_ngl_message (attempt e)) = false).
    { destruct (fst (send_ngl_message (attempt e))); [ | reflexivity ].
      now specialize (Hok eq_refl). }
    rewrite Eok in *.
    apply String.eqb_neq in Hans. rewrite Hans, andb_false_r in Hfl.
    subst fl.
    destruct (IH st' Hrest) as (Hend & Hpasses & Hfinal); [lia|].
    cbn [ending passes final List.length].
    rewrite Nat2Z.inj_succ, Hfinal, Hi', Hc, Hsc, Hfc.
    repeat split; [assumption | now rewrite Hpasses | f_equal; lia].
Qed.

Lemma failed_lines_nonneg (out : list Event) : 0 <= failed_lines out.
Proof.
  induction out as [|ev out IH]; [reflexivity|].
  destruct ev; cbn [failed_lines]; lia.
Qed.

Lemma rate_limited_lines_nonneg (out : list Event) :
  0 <= rate_limited_lines out.
Proof.
  induction out as [|ev out IH]; [reflexivity|].
  destruct ev; cbn [rate_limited_lines]; lia.
Qed.

Lemma loop_states_consistent (count : Z) (min_delay max_delay : Q)
    (env : list PassEnv) :
  forall st,
    counters_consistent st ->
    Forall counters_consistent
           (loop_states count min_delay max_delay st env).
Proof.
  induction env as [|e env IH]; intros st Hst; cbn [loop_states];
    destruct (i st <=? count); try constructor.
  destruct (loop_pass count min_delay max_delay st e) as [[fl st'] out]
    eqn:Hpass.
  destruct (pass_facts count min_delay max_delay st e fl st' out Hpass)
    as (Hok & Hi & Hc & Hsc & Hfc & _).
  cbv zeta in Hok.
  assert (Hst' : counters_consistent st').
  { unfold counters_consistent in *. rewrite Hi, Hc, Hsc, Hfc.
    destruct (fst (send_ngl_message (attempt e)));
      [ rewrite (Hok eq_refl) | destruct (rate_limit_branch (attempt e)) ];
      lia. }
  destruct fl; constructor; try assumption; [now apply IH | constructor].
Qed.

Lemma final_consistent (count : Z) (min_delay max_delay : Q)
    (env : list PassEnv) :
  counters_consistent
    (final (while_loop count min_delay max_delay initial_state env)).
Proof.
  assert (Hinit : counters_consistent initial_state)
    by (unfold counters_consistent; cbn; lia).
  rewrite while_loop_final.
  pose proof (loop_states_consistent count min_delay max_delay env
                initial_state Hinit) as Hall.
  destruct (loop_states count min_delay max_delay initial_state env)
    as [|s l]; [exact Hinit|].
  rewrite Forall_forall in Hall. apply Hall.
  destruct (@exists_last _ (s :: l)) as (l' & a & Heq); [discriminate|].
  rewrite Heq, last_last. apply in_or_app. right. now left.
Qed.

(** X1: for [count >= 0], a run never takes more than [count] passes plus
    one pass for each rate-limit retry, and it takes exactly that many
    exactly when it ends by running past the last slot. *)
Theorem X1_passes_are_count_plus_retries (count : Z)
    (min_delay max_delay : Q) (env : list PassEnv) :
  0 <= count ->
  let r := fst (send_multiple_messages count min_delay max_delay env) in
  Z.of_nat (passes r) <= count + rate_limited_lines (output r)
  /\ (ending r = Completed
      <-> Z.of_nat (passes r) = count + rate_limited_lines (output r)).
Proof.
  intros Hcount. unfold send_multiple_messages. cbn [fst]. cbv zeta.
  destruct (while_loop_counts count min_delay max_delay env initial_state)
    as (Ht & Hi & Hf & _ & He & Hb & _).
  destruct (while_loop_more count min_delay max_delay env initial_state)
    as (_ & _ & _ & Ha & _ & _ & Hp & _); [cbn; lia|].
  cbn [initial_state i success_count fail_count] in *.
  split; [lia|]. split.
  - intros Hend. specialize (He Hend). lia.
  - intros Hpasses.
    destruct (ending (while_loop count min_delay max_delay
                        initial_state env)); [reflexivity | | ].
    + destruct (Ha eq_refl). lia.
    + destruct (Hp eq_refl). lia.
Qed.

Lemma X1_passes_are_count_plus_retries_witness :
  let r := fst (send_multiple_messages 3 1 2
                  (map env_of [Response 429; Response 429; Response 200;
                               Response 200; Response 200])) in
  0 <= 3 /\ Z.of_nat (passes r) = 3 + rate_limited_lines (output r).
Proof.
  cbv zeta.
  assert (H : 0 <= 3) by lia.
  split; [exact H|].
  apply (X1_passes_are_count_plus_retries 3 1 2
           (map env_of [Response 429; Response 429; Response 200;
                        Response 200; Response 200]) H).
  reflexivity.
Defined.



(** X3: the loop has no retry limit of its own.  For [count >= 1], as
    long as every result is sent into the rate-limit branch and no answer
    is "2", the run stays on slot 1 with no success, and every pass adds
    one to the failures and to the rate limits in a row.  (Stated for up
    to 1751 results, the rate limits in a row for which [1.5 ** k] stays
    within the range of a float.) *)
Theorem X3_rate_limits_alone_never_end_the_run (count : Z)
    (min_delay max_delay : Q) (env : list PassEnv) :
  1 <= count ->
  (List.length env <= 1751)%nat ->
  Forall (fun e => rate_limit_branch (attempt e) = true
                   /\ Py.strip (answer e) <> "2") env ->
  let r := fst (send_multiple_messages count min_delay max_delay env) in
  ending r = Pending
  /\ passes r = List.length env
  /\ final r = {| i := 1;
                  success_count := 0;
                  fail_count := Z.of_nat (List.length env);
                  consecutive_rate_limits := Z.of_nat (List.length env) |}.
Proof.
  intros Hcount _ Hall. unfold send_multiple_messages. cbn [fst]. cbv zeta.
  apply (while_loop_only_rate_limits count min_delay max_delay env
           initial_state Hall).
  cbn [initial_state i]. lia.
Qed.

Lemma X3_rate_limits_alone_never_end_the_run_witness :
  let env := [mkPassEnv (Response 429) ""; mkPassEnv (Response 429) "";
              mkPassEnv (Response 429) "1"; mkPassEnv (Response 429) "y"] in
  ending (fst (send_multiple_messages 1 1 2 env)) = Pending
  /\ fail_count (final (fst (send_multiple_messages 1 1 2 env))) = 4.
Proof.
  cbv zeta.
  pose (env := [mkPassEnv (Response 429) ""; mkPassEnv (Response 429) "";
                mkPassEnv (Response 429) "1";
                mkPassEnv (Response 429) "y"]).
  assert (Hcount : 1 <= 1) by lia.
  assert (Hlen : (List.length env <= 1751)%nat) by (cbn; lia).
  assert (Hall : Forall (fun e => rate_limit_branch (attempt e) = true
                                  /\ Py.strip (answer e) <> "2") env)
    by (repeat constructor; discriminate).
  destruct (X3_rate_limits_alone_never_end_the_run 1 1 2 env Hcount Hlen
              Hall)
    as (Hend & _ & Hfinal).
  fold env. split; [exact Hend|]. now rewrite Hfinal.
Defined.

(** X4: a run ends by the user's choice only after at least three rate
    limits in a row: it has then taken at least three passes, counts at
    least three failures, printed the stopping line once, and stands on a
    slot within [count] with fewer than [count] successes. *)
Theorem X4_abort_only_after_three_rate_limits (count : Z)
    (min_delay max_delay : Q) (env : list PassEnv) :
  let r := fst (send_multiple_messages count min_delay max_delay env) in
  ending r = Aborted ->
  3 <= consecutive_rate_limits (final r)
  /\ (3 <= passes r)%nat
  /\ 3 <= fail_count (final r)
  /\ stopping_lines (output r) = 1
  /\ i (final r) <= count
  /\ success_count (final r) < count.
Proof.
  unfold send_multiple_messages. cbn [fst]. cbv zeta. intros Hend.
  destruct (while_loop_more count min_delay max_delay env initial_state)
    as (_ & Hc & _ & Ha & Hs & _); [cbn; lia|].
  destruct (final_consistent count min_delay max_delay env)
    as (_ & Hfc & Hsc & _).
  rewrite Hend in Hs. destruct (Ha Hend) as (Hthree & Hi).
  cbn [initial_state consecutive_rate_limits] in Hc.
  repeat split; try (assumption || lia).
Qed.

Lemma X4_abort_only_after_three_rate_limits_witness :
  let env := [env_of (Response 429); env_of (Response 429);
              mkPassEnv (Response 429) "2"; env_of (Response 200)] in
  let r := fst (send_multiple_messages 2 1 2 env) in
  ending r = Aborted /\ (3 <= passes r)%nat /\ success_count (final r) < 2.
Proof.
  cbv zeta.
  pose (env := [env_of (Response 429); env_of (Response 429);
                mkPassEnv (Response 429) "2"; env_of (Response 200)]).
  assert (Hend : ending (fst (send_multiple_messages 2 1 2 env)) = Aborted)
    by reflexivity.
  destruct (X4_abort_only_after_three_rate_limits 2 1 2 env Hend)
    as (_ & Hpasses & _ & _ & _ & Hsc).
  fold env. split; [exact Hend|]. split; [exact Hpasses | exact Hsc].
Defined.

(** X5: in every state a run goes through, with fewer than 1751 rate
    limits in a row counted (the range in which the power of the backoff
    does not overflow), a pass that takes the rate-limit branch and goes
    on to retry sleeps at least 30 and at most 300 whole seconds in its
    countdown. *)
Theorem X5_backoff_between_30_and_300_seconds_per_retry (count : Z)
    (min_delay max_delay : Q) (env : list PassEnv)
    (st : LoopState) (e : PassEnv) :
  In st (initial_state
           :: loop_states count min_delay max_delay initial_state env) ->
  consecutive_rate_limits st < 1751 ->
  let fl := fst (fst (loop_pass count min_delay max_delay st e)) in
  let out := snd (loop_pass count min_delay max_delay st e) in
  rate_limited_lines out = 1 -> fl = Continue ->
  30 <= countdown_seconds out <= 300.
Proof.
  intros Hin _. cbv zeta.
  assert (Hst : counters_consistent st).
  { assert (Hinit : counters_consistent initial_state)
      by (unfold counters_consistent; cbn; lia).
    destruct Hin as [<- | Hin]; [exact Hinit|].
    pose proof (loop_states_consistent count min_delay max_delay env
                  initial_state Hinit) as Hall.
    rewrite Forall_forall in Hall. now apply Hall. }
  destruct Hst as (_ & (Hcrl & _) & _).
  destruct (pass_output_counts count min_delay max_delay st e)
    as (_ & Hr & _).
  rewrite Hr, pass_countdown_seconds.
  destruct (rate_limit_branch (attempt e)); [ | discriminate ].
  intros _ ->. apply countdown_length_bounds. lia.
Qed.

Lemma X5_backoff_between_30_and_300_seconds_per_retry_witness :
  let st := {| i := 1; success_count := 0; fail_count := 1;
               consecutive_rate_limits := 1 |} in
  30 <= countdown_seconds (snd (loop_pass 2 1 2 st (env_of (Response 429))))
     <= 300.
Proof.
  cbv zeta.
  apply (X5_backoff_between_30_and_300_seconds_per_retry 2 1 2
           [env_of (Response 429)]
           {| i := 1; success_count := 0; fail_count := 1;
              consecutive_rate_limits := 1 |}
           (env_of (Response 429))).
  - right. left. reflexivity.
  - cbn. lia.
  - reflexivity.
  - reflexivity.
Defined.

(** X6: a run sends once per pass, only for slots from 1 to [count], and
    never for a lower slot after a higher one. *)
Theorem X6_sends_stay_within_the_slots_in_order (count : Z)
    (min_delay max_delay : Q) (env : list PassEnv) :
  let r := fst (send_multiple_messages count min_delay max_delay env) in
  List.length (slots_sent (output r)) = passes r
  /\ Forall (fun slot => 1 <= slot <= count) (slots_sent (output r))
  /\ StronglySorted Z.le (slots_sent (output r)).
Proof.
  unfold send_multiple_messages. cbn [fst]. cbv zeta.
  apply (while_loop_slots count min_delay max_delay env initial_state).
Qed.

(** X7: for [count >= 1], the inter-message delay is slept at most
    [count - 1] times and never more often than there are successes; every
    success but one on the last slot is followed by it, so that a run that
    has not gone past the last slot has slept it once per success. *)
Theorem X7_delay_after_every_success_but_the_last_slot (count : Z)
    (min_delay max_delay : Q) (env : list PassEnv) :
  1 <= count ->
  let r := fst (send_multiple_messages count min_delay max_delay env) in
  uniform_sleeps (output r) <= count - 1
  /\ success_count (final r) - 1 <= uniform_sleeps (output r)
     <= success_count (final r)
  /\ (i (final r) <= count ->
      uniform_sleeps (output r) = success_count (final r)).
Proof.
  intros Hcount. unfold send_multiple_messages. cbn [fst]. cbv zeta.
  destruct (while_loop_more count min_delay max_delay env initial_state)
    as (_ & _ & _ & _ & _ & _ & _ & _ & Hle & Hmax & Hge & Heq);
    [cbn; lia|].
  cbn [initial_state i success_count] in *.
  split; [lia|]. split; [lia|].
  intros Hi. specialize (Heq (or_introl Hi)). lia.
Qed.

Lemma X7_delay_after_every_success_but_the_last_slot_witness :
  let r := fst (send_multiple_messages 3 1 2
                  (map env_of [Response 200; Response 404;
                               Response 200])) in
  1 <= 3 /\ uniform_sleeps (output r) <= 3 - 1
  /\ success_count (final r) - 1 <= uniform_sleeps (output r).
Proof.
  cbv zeta.
  assert (H : 1 <= 3) by lia.
  destruct (X7_delay_after_every_success_but_the_last_slot 3 1 2
              (map env_of [Response 200; Response 404; Response 200]) H)
    as (Hmax & (Hge & _) & _).
  split; [exact H|]. split; [exact Hmax | exact Hge].
Defined.

(** X8: in every state a run goes through, the rate limits in a row are
    between 0 and the failures counted, the successes are not negative and
    fewer than [i], and [i - 1] is at most the successes plus the failures
    that are not among the current rate limits in a row. *)
Theorem X8_counters_stay_consistent (count : Z)
    (min_delay max_delay : Q) (env : list PassEnv) :
  Forall (fun st =>
            0 <= success_count st
            /\ 0 <= consecutive_rate_limits st <= fail_count st
            /\ success_count st + 1 <= i st
            /\ i st - 1
               <= success_count st + fail_count st
                  - consecutive_rate_limits st)
         (initial_state
            :: loop_states count min_delay max_delay initial_state env).
Proof.
  assert (Hinit : counters_consistent initial_state)
    by (unfold counters_consistent; cbn; lia).
  pose proof (loop_states_consistent count min_delay max_delay env
                initial_state Hinit) as Hall.
  eapply Forall_impl; [ | constructor; [exact Hinit | exact Hall] ].
  unfold counters_consistent. intros st (H1 & H2 & H3 & H4).
  repeat split; lia.
Qed.

(** ** Further properties of the transport *)

(** The parser for plain numerals reads back what [str] writes. *)
Lemma numeral_int_str (n : Z) : numeral_int (Py.str n) = Some n.
Proof.
  unfold numeral_int, Py.str.
  rewrite NilZero.isi.
  - cbn [option_map]. now rewrite DecimalZ.of_to.
  - destruct n as [ | p | p ]; cbn [Z.to_int]; try discriminate.
    intros [= Hnil].
    pose proof (DecimalPos.Unsigned.of_to p) as Hp.
    rewrite Hnil in Hp. discriminate.
  - destruct n as [ | p | p ]; cbn [Z.to_int]; try discriminate.
    intros [= Hnil].
    pose proof (DecimalPos.Unsigned.of_to p) as Hp.
    rewrite Hnil in Hp. discriminate.
Qed.

Lemma str_injective (n m : Z) : Py.str n = Py.str m -> n = m.
Proof.
  intros Heq.
  pose proof (numeral_int_str n) as Hn. rewrite Heq, numeral_int_str in Hn.
  now injection Hn.
Qed.

(** The pair returned determines the attempt. *)
Lemma send_ngl_message_injective (a b : Attempt) :
  send_ngl_message a = send_ngl_message b -> a = b.
Proof.
  destruct a as [c1 | | | e1], b as [c2 | | | e2]; cbn [send_ngl_message];
    try destruct (c1 =? 200) eqn:H1; try destruct (c1 =? 429) eqn:H1';
    try destruct (c2 =? 200) eqn:H2; try destruct (c2 =? 429) eqn:H2';
    cbn [append]; intros Heq; try discriminate Heq; try reflexivity;
    repeat match goal with
           | H : (_ =? _) = true |- _ => apply Z.eqb_eq in H
           end;
    try congruence.
  injection Heq as Hstr. f_equal. now apply str_injective.
Qed.

(** X9: [send_ngl_message] never returns the same pair for two different
    things that [session.post] did, where what it did is: a response with
    its status code, a timeout, a connection failure, or another request
    exception with its text.  So two different status codes, two different
    texts of such an exception, and two different kinds of result always
    give different pairs.  (The function does not look at the text of a
    timeout or of a connection failure, which is why these two have no
    text here.) *)
Theorem X9_different_results_get_different_pairs (a b : Attempt) :
  a <> b -> send_ngl_message a <> send_ngl_message b.
Proof.
  intros Hne Heq. apply Hne. now apply send_ngl_message_injective.
Qed.

Lemma X9_different_results_get_different_pairs_witness :
  send_ngl_message RaisedTimeout
  <> send_ngl_message (RaisedRequestException "timeout")
  /\ send_ngl_message (Response 404) <> send_ngl_message (Response 403).
Proof.
  split.
  - apply (X9_different_results_get_different_pairs
             RaisedTimeout (RaisedRequestException "timeout")).
    discriminate.
  - apply (X9_different_results_get_different_pairs
             (Response 404) (Response 403)).
    discriminate.
Defined.

(** X10: on the results whose message mentions 429 only for status 429 (a
    response with a three-digit status, a timeout, a connection failure, a
    request exception whose text has no "429"), a pass retries the slot
    exactly on status 429: then it keeps [i] and adds one to the rate
    limits in a row, otherwise it adds one to [i] and sets them to 0; it
    adds one to the failures unless the status is 200. *)
Theorem X10_clean_results_follow_their_class (count : Z)
    (min_delay max_delay : Q) (st : LoopState) (e : PassEnv) :
  (exists code, attempt e = Response code /\ 100 <= code <= 999)
  \/ attempt e = RaisedTimeout
  \/ attempt e = RaisedConnectionError
  \/ (exists text, attempt e = RaisedRequestException text
                   /\ Py.contains "429" text = false) ->
  let st' := snd (fst (loop_pass count min_delay max_delay st e)) in
  (attempt e = Response 429 ->
     i st' = i st
     /\ consecutive_rate_limits st' = consecutive_rate_limits st + 1)
  /\ (attempt e <> Response 429 ->
      i st' = i st + 1 /\ consecutive_rate_limits st' = 0)
  /\ (attempt e <> Response 200 -> fail_count st' = fail_count st + 1)
  /\ (attempt e = Response 200 ->
      fail_count st' = fail_count st
      /\ success_count st' = success_count st + 1).
Proof.
  intros Hclean. cbv zeta.
  destruct rate_limit_branch_by_result
    as (H429 & H200 & Hcode & Htimeout & Hconn & Hexc).
  rewrite pass_index, pass_consecutive, pass_fail_count, pass_success_count.
  assert (Hbranch : attempt e <> Response 429 ->
                    rate_limit_branch (attempt e) = false).
  { intros Hne.
    destruct Hclean as [(code & Ha & Hrange) | [Ha | [Ha | (text & Ha & Ht)]]];
      rewrite Ha in *; try assumption.
    apply Hcode; [exact Hrange | congruence]. }
  split; [ intros Ha; rewrite Ha, H429; now split | ].
  split; [ intros Hne; rewrite (Hbranch Hne); now split | ].
  split.
  - intros Hne.
    destruct (fst (send_ngl_message (attempt e))) eqn:Hok; [ | reflexivity ].
    apply send_success_iff in Hok. contradiction.
  - intros Ha. rewrite Ha. cbn. now split.
Qed.

Lemma X10_clean_results_follow_their_class_witness :
  let st' := snd (fst (loop_pass 5 1 2 initial_state
                         (env_of (Response 403)))) in
  i st' = 2 /\ consecutive_rate_limits st' = 0 /\ fail_count st' = 1.
Proof.
  cbv zeta.
  assert (Hclean :
            (exists code, attempt (env_of (Response 403)) = Response code
                          /\ 100 <= code <= 999)
            \/ attempt (env_of (Response 403)) = RaisedTimeout
            \/ attempt (env_of (Response 403)) = RaisedConnectionError
            \/ (exists text,
                   attempt (env_of (Response 403))
                   = RaisedRequestException text
                   /\ Py.contains "429" text = false)).
  { left. exists 403. split; [reflexivity | lia]. }
  destruct (X10_clean_results_follow_their_class 5 1 2 initial_state
              (env_of (Response 403)) Hclean)
    as (_ & Hadvance & Hfail & _).
  destruct Hadvance as (Hi & Hc); [discriminate|].
  split; [exact Hi|]. split; [exact Hc|].
  apply Hfail. discriminate.
Defined.

(** ** The script *)

Lemma lstrip_head (s : string) :
  match Py.lstrip s with
  | EmptyString => True
  | String c _ => Py.isspace c = false
  end.
Proof.
  induction s as [|c s IH]; cbn [Py.lstrip]; [exact I|].
  destruct (Py.isspace c) eqn:Hc; [exact IH | exact Hc].
Qed.

Lemma lstrip_fixed (s : string) :
  match s with
  | EmptyString => True
  | String c _ => Py.isspace c = false
  end ->
  Py.lstrip s = s.
Proof.
  destruct s as [|c s]; [reflexivity|].
  cbn [Py.lstrip]. now intros ->.
Qed.

Lemma rstrip_head (c : ascii) (s : string) :
  Py.isspace c = false ->
  exists r, Py.rstrip (String c s) = String c r.
Proof.
  intros Hc. cbn [Py.rstrip].
  destruct (Py.rstrip s) as [|c' r']; [rewrite Hc|]; eauto.
Qed.

Lemma rstrip_cons (c : ascii) (s : string) :
  Py.rstrip (String c s)
  = match Py.rstrip s with
    | EmptyString => if Py.isspace c then EmptyString else String c EmptyString
    | r => String c r
    end.
Proof. reflexivity. Qed.

Lemma rstrip_idempotent (s : string) : Py.rstrip (Py.rstrip s) = Py.rstrip s.
Proof.
  induction s as [|c s IH]; [reflexivity|].
  rewrite rstrip_cons.
  destruct (Py.rstrip s) as [|c' r'] eqn:Hr.
  - destruct (Py.isspace c) eqn:Hc; [reflexivity|].
    rewrite rstrip_cons. cbn [Py.rstrip]. now rewrite Hc.
  - rewrite rstrip_cons, IH. reflexivity.
Qed.

(** [strip] leaves nothing to strip. *)
Lemma strip_idempotent (s : string) : Py.strip (Py.strip s) = Py.strip s.
Proof.
  unfold Py.strip.
  pose proof (lstrip_head s) as Hhead.
  destruct (Py.lstrip s) as [|c t] eqn:Hl; [reflexivity|].
  destruct (rstrip_head c t Hhead) as (r & Hr).
  rewrite Hr, lstrip_fixed by exact Hhead.
  rewrite <- Hr. apply rstrip_idempotent.
Qed.

Lemma float_lt_finite (p q : Q) :
  float_lt (Finite p) (Finite q) = false <-> (q <= p)%Q.
Proof.
  cbn [float_lt]. rewrite negb_false_iff. apply Qle_bool_iff.
Qed.

(** The delays that come out of the delay settings pass the check of the
    script (the defaults do so too), and one or two lines were read. *)
Lemma read_delays_inv (py_float : string -> option PyFloat)
    (lines : list string) (a b : PyFloat) (rest : list string) :
  read_delays py_float lines = Some (a, b, rest) ->
  float_lt a (Finite (1 # 2)) = false
  /\ float_lt b a = false
  /\ ((exists line1, lines = line1 :: rest)
      \/ (exists line1 line2, lines = line1 :: line2 :: rest)).
Proof.
  unfold read_delays, default_delays.
  destruct lines as [|line1 lines1]; [discriminate|].
  destruct (py_float (or_else (Py.strip line1) "1")) as [mn|].
  - destruct lines1 as [|line2 lines2]; [discriminate|].
    destruct (py_float (or_else (Py.strip line2) "2")) as [mx|].
    + destruct (float_lt mn (Finite (1 # 2))) eqn:Hmn;
        [ | destruct (float_lt mx mn) eqn:Hmx ]; cbn [orb];
        intros [= <- <- <-]; repeat split; eauto.
    + intros [= <- <- <-]. repeat split; eauto.
  - intros [= <- <- <-]. repeat split; eauto.
Qed.

(** How the script gets to the call. *)
Lemma main_calls_inv (py_int : string -> option Z)
    (py_float : string -> option PyFloat) (lines : list string)
    (u m : string) (c : Z) (a b : PyFloat) (rest : list string) :
  main py_int py_float lines = (Calls u m c a b, rest) ->
  exists line1 line2 line3 lines3 confirm,
    lines = line1 :: line2 :: line3 :: lines3
    /\ u = Py.strip line1 /\ u <> ""
    /\ m = Py.strip line2 /\ m <> ""
    /\ py_int (Py.strip line3) = Some c /\ 1 <= c
    /\ read_delays py_float lines3 = Some (a, b, confirm :: rest)
    /\ lower (Py.strip confirm) = "y".
Proof.
  unfold main.
  destruct lines as [|line1 [|line2 [|line3 lines3]]];
    try discriminate;
    destruct (String.eqb_spec (Py.strip line1) "") as [Hu|Hu];
    try discriminate;
    destruct (String.eqb_spec (Py.strip line2) "") as [Hm|Hm];
    try discriminate.
  destruct (py_int (Py.strip line3)) as [count|] eqn:Hint; [|discriminate].
  destruct (count <? 1) eqn:Hcount; [discriminate|].
  apply Z.ltb_ge in Hcount.
  destruct (read_delays py_float lines3) as [[[mn mx] lines5]|] eqn:Hdelays;
    [|discriminate].
  unfold confirm_and_send.
  destruct lines5 as [|confirm lines6]; [discriminate|].
  destruct (String.eqb_spec (lower (Py.strip confirm)) "y") as [Hy|Hy];
    cbn [negb fst snd]; [|discriminate].
  intros [= <- <- <- <- <- <-].
  exists line1, line2, line3, lines3, confirm.
  repeat split; (assumption || reflexivity).
Qed.

(** X11: the script calls [send_multiple_messages] only with a user name
    and a message that are not empty and have no white space around
    them, with a count of at least 1, and after a confirmation that is
    "y" or "Y" up to white space around it. *)
Theorem X11_script_sends_only_checked_arguments
    (py_int : string -> option Z) (py_float : string -> option PyFloat)
    (lines : list string) (u m : string) (c : Z) (a b : PyFloat)
    (rest : list string) :
  main py_int py_float lines = (Calls u m c a b, rest) ->
  u <> "" /\ Py.strip u = u
  /\ m <> "" /\ Py.strip m = m
  /\ 1 <= c
  /\ exists line1 line2 line3 between confirm,
       lines = (line1 :: line2 :: line3 :: between ++ confirm :: rest)%list
       /\ u = Py.strip line1 /\ m = Py.strip line2
       /\ py_int (Py.strip line3) = Some c
       /\ (1 <= List.length between <= 2)%nat
       /\ (Py.strip confirm = "y" \/ Py.strip confirm = "Y").
Proof.
  intros Hmain.
  destruct (main_calls_inv _ _ _ _ _ _ _ _ _ Hmain)
    as (line1 & line2 & line3 & lines3 & confirm & Hlines & Hu & Hune
        & Hm & Hmne & Hint & Hc & Hdelays & Hy).
  split; [exact Hune|]. split; [subst u; apply strip_idempotent|].
  split; [exact Hmne|]. split; [subst m; apply strip_idempotent|].
  split; [exact Hc|].
  destruct (read_delays_inv _ _ _ _ _ Hdelays) as (_ & _ & Hread).
  assert (Hconfirm : Py.strip confirm = "y" \/ Py.strip confirm = "Y").
  { destruct (Py.strip confirm) as [|ch [|ch' t]]; try discriminate Hy.
    cbn [lower] in Hy. injection Hy as Hch.
    destruct ch as [[] [] [] [] [] [] [] []]; try discriminate Hch;
      auto. }
  destruct Hread as [(d1 & Hd) | (d1 & d2 & Hd)].
  - exists line1, line2, line3, [d1], confirm.
    subst lines lines3. cbn [app List.length]. repeat split; auto.
  - exists line1, line2, line3, [d1; d2], confirm.
    subst lines lines3. cbn [app List.length]. repeat split; auto.
Qed.

Lemma X11_script_sends_only_checked_arguments_witness :
  main numeral_int numeral_float [" someone "; "hello"; "3"; ""; ""; " Y "]
  = (Calls "someone" "hello" 3 (Finite 1) (Finite 2), [])
  /\ 1 <= 3.
Proof.
  assert (Hmain : main numeral_int numeral_float
                    [" someone "; "hello"; "3"; ""; ""; " Y "]
                  = (Calls "someone" "hello" 3 (Finite 1) (Finite 2), []))
    by reflexivity.
  split; [exact Hmain|].
  destruct (X11_script_sends_only_checked_arguments _ _ _ _ _ _ _ _ _ Hmain)
    as (_ & _ & _ & _ & Hc & _).
  exact Hc.
Defined.

(** X12: the delays with which the script calls the loop always pass its
    check: the minimum is not below 0.5 and the maximum is not below the
    minimum, so that two finite delays satisfy [0.5 <= min <= max] and the
    minimum is never minus infinity; and they are the defaults 1 and 2 or
    what [float] made of the two lines typed. *)
Theorem X12_script_delays_pass_the_check
    (py_int : string -> option Z) (py_float : string -> option PyFloat)
    (lines : list string) (u m : string) (c : Z) (a b : PyFloat)
    (rest : list string) :
  main py_int py_float lines = (Calls u m c a b, rest) ->
  float_lt a (Finite (1 # 2)) = false
  /\ float_lt b a = false
  /\ (forall p q, a = Finite p -> b = Finite q ->
        (1 # 2 <= p)%Q /\ (p <= q)%Q)
  /\ a <> Infinity true
  /\ ((a, b) = default_delays
      \/ exists line4 line5,
           In line4 lines /\ In line5 lines
           /\ py_float (or_else (Py.strip line4) "1") = Some a
           /\ py_float (or_else (Py.strip line5) "2") = Some b).
Proof.
  intros Hmain.
  destruct (main_calls_inv _ _ _ _ _ _ _ _ _ Hmain)
    as (line1 & line2 & line3 & lines3 & confirm & Hlines & _ & _
        & _ & _ & _ & _ & Hdelays & _).
  destruct (read_delays_inv _ _ _ _ _ Hdelays) as (Ha & Hb & _).
  split; [exact Ha|]. split; [exact Hb|]. split; [|split].
  - intros p q -> ->. split; now apply float_lt_finite.
  - intros ->. discriminate Ha.
  - revert Hdelays. unfold read_delays, default_delays.
    destruct lines3 as [|line4 lines4]; [discriminate|].
    destruct (py_float (or_else (Py.strip line4) "1")) as [mn|] eqn:Hmn;
      [ | intros [= <- <- _]; now left ].
    destruct lines4 as [|line5 lines5]; [discriminate|].
    destruct (py_float (or_else (Py.strip line5) "2")) as [mx|] eqn:Hmx;
      [ | intros [= <- <- _]; now left ].
    destruct (float_lt mn (Finite (1 # 2)) || float_lt mx mn);
      intros [= <- <- _]; [now left|].
    right. exists line4, line5. subst lines. cbn [In]. tauto.
Qed.

Lemma X12_script_delays_pass_the_check_witness :
  main numeral_int numeral_float ["someone"; "hello"; "3"; "2"; "5"; "y"]
  = (Calls "someone" "hello" 3 (Finite (inject_Z 2)) (Finite (inject_Z 5)),
     [])
  /\ (1 # 2 <= inject_Z 2)%Q /\ (inject_Z 2 <= inject_Z 5)%Q.
Proof.
  assert (Hmain : main numeral_int numeral_float
                    ["someone"; "hello"; "3"; "2"; "5"; "y"]
                  = (Calls "someone" "hello" 3 (Finite (inject_Z 2))
                           (Finite (inject_Z 5)), []))
    by reflexivity.
  split; [exact Hmain|].
  destruct (X12_script_delays_pass_the_check _ _ _ _ _ _ _ _ _ Hmain)
    as (_ & _ & Hfinite & _).
  apply (Hfinite (inject_Z 2) (inject_Z 5)); reflexivity.
Defined.

(** X13: the check of the delays lets a NaN through.  When [float] makes
    a NaN of the minimum typed, the script goes on with that NaN and with
    whatever [float] made of the maximum, instead of the defaults. *)
Theorem X13_nan_minimum_delay_is_accepted
    (py_int : string -> option Z) (py_float : string -> option PyFloat)
    (line1 line2 line3 line4 line5 confirm : string) (rest : list string)
    (c : Z) (mx : PyFloat) :
  Py.strip line1 <> "" -> Py.strip line2 <> "" ->
  py_int (Py.strip line3) = Some c -> 1 <= c ->
  py_float (or_else (Py.strip line4) "1") = Some NaN ->
  py_float (or_else (Py.strip line5) "2") = Some mx ->
  lower (Py.strip confirm) = "y" ->
  main py_int py_float
       (line1 :: line2 :: line3 :: line4 :: line5 :: confirm :: rest)
  = (Calls (Py.strip line1) (Py.strip line2) c NaN mx, rest).
Proof.
  intros Hu Hm Hint Hc Hmin Hmax Hy. unfold main.
  apply String.eqb_neq in Hu, Hm. rewrite Hu, Hm, Hint.
  rewrite (proj2 (Z.ltb_ge c 1) Hc).
  unfold read_delays. rewrite Hmin, Hmax.
  replace (float_lt NaN (Finite (1 # 2)) || float_lt mx NaN) with false
    by (now destruct mx).
  unfold confirm_and_send. rewrite Hy. reflexivity.
Qed.

Lemma X13_nan_minimum_delay_is_accepted_witness :
  let py_float := fun s => if String.eqb s "nan" then Some NaN
                           else numeral_float s in
  main numeral_int py_float ["someone"; "hello"; "3"; "nan"; "1"; "y"]
  = (Calls "someone" "hello" 3 NaN (Finite (inject_Z 1)), []).
Proof.
  cbv zeta.
  apply (X13_nan_minimum_delay_is_accepted numeral_int
           (fun s => if String.eqb s "nan" then Some NaN
                     else numeral_float s)
           "someone" "hello" "3" "nan" "1" "y" [] 3 (Finite (inject_Z 1)));
    (reflexivity || discriminate || lia).
Defined.

(** X14: after a minimum delay that [float] does not accept, the script
    does not ask for the maximum: it takes the defaults 1 and 2, and the
    line typed next is read as the confirmation, so that anything but "y"
    there cancels the run with status 0. *)
Theorem X14_bad_minimum_delay_skips_the_maximum
    (py_int : string -> option Z) (py_float : string -> option PyFloat)
    (line1 line2 line3 line4 next : string) (rest : list string) (c : Z) :
  Py.strip line1 <> "" -> Py.strip line2 <> "" ->
  py_int (Py.strip line3) = Some c -> 1 <= c ->
  py_float (or_else (Py.strip line4) "1") = None ->
  main py_int py_float (line1 :: line2 :: line3 :: line4 :: next :: rest)
  = (if String.eqb (lower (Py.strip next)) "y"
     then Calls (Py.strip line1) (Py.strip line2) c (Finite 1) (Finite 2)
     else Exited 0 "Cancelled.",
     rest).
Proof.
  intros Hu Hm Hint Hc Hmin. unfold main.
  apply String.eqb_neq in Hu, Hm. rewrite Hu, Hm, Hint.
  rewrite (proj2 (Z.ltb_ge c 1) Hc).
  unfold read_delays. rewrite Hmin.
  unfold confirm_and_send, default_delays.
  destruct (String.eqb (lower (Py.strip next)) "y"); reflexivity.
Qed.

Lemma X14_bad_minimum_delay_skips_the_maximum_witness :
  main numeral_int numeral_float
       ["someone"; "hello"; "3"; "fast"; "2"; "y"]
  = (Exited 0 "Cancelled.", ["y"]).
Proof.
  apply (X14_bad_minimum_delay_skips_the_maximum numeral_int numeral_float
           "someone" "hello" "3" "fast" "2" ["y"] 3);
    (reflexivity || discriminate || lia).
Defined.

(** X15: up to the call of the loop the script reads at least one and at
    most six lines, in order, and leaves the others unread; it runs into
    the end of the input only when fewer than six lines are there. *)
Theorem X15_script_reads_at_most_six_lines
    (py_int : string -> option Z) (py_float : string -> option PyFloat)
    (lines : list string) :
  let result := fst (main py_int py_float lines) in
  let rest := snd (main py_int py_float lines) in
  (result = RaisedEOFError -> (List.length lines <= 5)%nat /\ rest = [])
  /\ (result <> RaisedEOFError ->
      exists read, lines = (read ++ rest)%list
                   /\ (1 <= List.length read <= 6)%nat).
Proof.
  cbv zeta. unfold main, read_delays, confirm_and_send.
  destruct lines as [|line1 lines1];
    [cbn; split; [intros _; split; [lia | reflexivity] | congruence]|].
  destruct (String.eqb (Py.strip line1) "");
    [cbn [fst snd]; split; [discriminate|];
     intros _; exists [line1]; cbn; split; [reflexivity | lia]|].
  destruct lines1 as [|line2 lines2];
    [cbn; split; [intros _; split; [lia | reflexivity] | congruence]|].
  destruct (String.eqb (Py.strip line2) "");
    [cbn [fst snd]; split; [discriminate|];
     intros _; exists [line1; line2]; cbn; split; [reflexivity | lia]|].
  destruct lines2 as [|line3 lines3];
    [cbn; split; [intros _; split; [lia | reflexivity] | congruence]|].
  destruct (py_int (Py.strip line3)) as [c|];
    [ | cbn [fst snd]; split; [discriminate|];
        intros _; exists [line1; line2; line3]; cbn;
        split; [reflexivity | lia] ].
  destruct (c <? 1);
    [cbn [fst snd]; split; [discriminate|];
     intros _; exists [line1; line2; line3]; cbn;
     split; [reflexivity | lia]|].
  destruct lines3 as [|line4 lines4];
    [cbn; split; [intros _; split; [lia | reflexivity] | congruence]|].
  destruct (py_float (or_else (Py.strip line4) "1")) as [mn|].
  - destruct lines4 as [|line5 lines5];
      [cbn; split; [intros _; split; [lia | reflexivity] | congruence]|].
    assert (Hconfirm :
              forall delays,
                let run := match lines5 with
                           | [] => (RaisedEOFError, [])
                           | line :: lines' =>
                               if negb (lower (Py.strip line) =? "y")%string
                               then (Exited 0 "Cancelled.", lines')
                               else (Calls (Py.strip line1) (Py.strip line2)
                                           c (fst delays) (snd delays),
                                     lines')
                           end in
                (fst run = RaisedEOFError ->
                 (List.length (line1 :: line2 :: line3 :: line4 :: line5
                                 :: lines5) <= 5)%nat
                 /\ snd run = [])
                /\ (fst run <> RaisedEOFError ->
                    exists read,
                      line1 :: line2 :: line3 :: line4 :: line5 :: lines5
                      = (read ++ snd run)%list
                      /\ (1 <= List.length read <= 6)%nat)).
    { intros delays. cbv zeta.
      destruct lines5 as [|line6 lines6];
        [cbn; split; [intros _; split; [lia | reflexivity] | congruence]|].
      destruct (negb (lower (Py.strip line6) =? "y")%string);
        cbn [fst snd]; (split; [discriminate|]); intros _;
        exists [line1; line2; line3; line4; line5; line6]; cbn;
        (split; [reflexivity | lia]). }
    destruct (py_float (or_else (Py.strip line5) "2")) as [mx|];
      [destruct (float_lt mn (Finite (1 # 2)) || float_lt mx mn)|];
      apply Hconfirm.
  - destruct lines4 as [|line5 lines5];
      [cbn; split; [intros _; split; [lia | reflexivity] | congruence]|].
    destruct (negb (lower (Py.strip line5) =? "y")%string);
      cbn [fst snd]; (split; [discriminate|]); intros _;
      exists [line1; line2; line3; line4; line5]; cbn;
      (split; [reflexivity | lia]).
Qed.

Lemma X15_script_reads_at_most_six_lines_witness :
  exists read,
    ["someone"; "hello"; "0"; "1"; "2"; "y"]
    = (read ++ snd (main numeral_int numeral_float
                      ["someone"; "hello"; "0"; "1"; "2"; "y"]))%list
    /\ (1 <= List.length read <= 6)%nat.
Proof.
  apply (X15_script_reads_at_most_six_lines numeral_int numeral_float
           ["someone"; "hello"; "0"; "1"; "2"; "y"]).
  discriminate.
Defined.

(** X16: the script calls [exit(1)] in four cases only, each right after
    the line concerned is read: the user name is empty, the message is
    empty, the count is no number, the count is below 1.  It calls
    [exit(0)] only to say that the run is cancelled; the delay settings
    never make it exit. *)
Theorem X16_script_exit_statuses
    (py_int : string -> option Z) (py_float : string -> option PyFloat)
    (lines : list string) (status : Z) (message : string)
    (rest : list string) :
  main py_int py_float lines = (Exited status message, rest) ->
  (status = 0 /\ message = "Cancelled.")
  \/ (status = 1
      /\ ((message = "Error: Username cannot be empty."
           /\ exists line1, lines = line1 :: rest /\ Py.strip line1 = "")
          \/ (message = "Error: Message cannot be empty."
              /\ exists line1 line2,
                   lines = line1 :: line2 :: rest /\ Py.strip line2 = "")
          \/ (message = "Error: Please enter a valid number."
              /\ exists line1 line2 line3,
                   lines = line1 :: line2 :: line3 :: rest
                   /\ py_int (Py.strip line3) = None)
          \/ (message = "Error: Count must be at least 1."
              /\ exists line1 line2 line3 c,
                   lines = line1 :: line2 :: line3 :: rest
                   /\ py_int (Py.strip line3) = Some c /\ c < 1))).
Proof.
  unfold main.
  destruct lines as [|line1 lines1]; [discriminate|].
  destruct (String.eqb_spec (Py.strip line1) "") as [Hu|Hu].
  { intros [= <- <- <-]. right. split; [reflexivity|]. left. eauto. }
  destruct lines1 as [|line2 lines2]; [discriminate|].
  destruct (String.eqb_spec (Py.strip line2) "") as [Hm|Hm].
  { intros [= <- <- <-]. right. split; [reflexivity|]. right. left. eauto. }
  destruct lines2 as [|line3 lines3]; [discriminate|].
  destruct (py_int (Py.strip line3)) as [c|] eqn:Hint.
  2:{ intros [= <- <- <-]. right. split; [reflexivity|].
      right. right. left. eauto 6. }
  destruct (c <? 1) eqn:Hc.
  { apply Z.ltb_lt in Hc. intros [= <- <- <-]. right. split; [reflexivity|].
    right. right. right. eauto 8. }
  destruct (read_delays py_float lines3) as [[delays lines5]|];
    [|discriminate].
  unfold confirm_and_send.
  destruct lines5 as [|confirm lines6]; [discriminate|].
  destruct (negb (lower (Py.strip confirm) =? "y")%string); [|discriminate].
  intros [= <- <- <-]. left. split; reflexivity.
Qed.

Lemma X16_script_exit_statuses_witness :
  main numeral_int numeral_float ["someone"; "hello"; "0"; "1"; "2"; "y"]
  = (Exited 1 "Error: Count must be at least 1.", ["1"; "2"; "y"]).
Proof.
  assert (Hmain : main numeral_int numeral_float
                    ["someone"; "hello"; "0"; "1"; "2"; "y"]
                  = (Exited 1 "Error: Count must be at least 1.",
                     ["1"; "2"; "y"]))
    by reflexivity.
  destruct (X16_script_exit_statuses _ _ _ _ _ _ Hmain)
    as [(Hzero & _) | _]; [discriminate Hzero | exact Hmain].
Defined.

(** ** Further properties of the summary *)

(** X17: the success rate that the summary computes, before [:.1f] rounds
    it to one decimal for printing, is a percentage above 0 and at most
    100, and it is 100 exactly when no failure was counted.  (The printed
    figure is this value rounded, so that it can read 0.0 or 100.0 also
    when the value is strictly between.) *)
Theorem X17_success_rate_is_a_percentage (count : Z)
    (min_delay max_delay : Q) (env : list PassEnv) (report : Report)
    (rate : Q) :
  snd (send_multiple_messages count min_delay max_delay env) = Some report ->
  success_rate report = Some rate ->
  (0 < rate)%Q /\ (rate <= 100)%Q
  /\ ((rate == 100)%Q
      <-> fail_count
            (final (fst (send_multiple_messages
                           count min_delay max_delay env))) = 0).
Proof.
  unfold send_multiple_messages. cbn [fst snd].
  destruct (while_loop_counts count min_delay max_delay env initial_state)
    as (_ & _ & _ & _ & _ & _ & Hsc & Hfc).
  cbn [initial_state success_count fail_count] in Hsc, Hfc.
  set (st := final (while_loop count min_delay max_delay initial_state env))
    in *.
  intros Hreport Hrate.
  assert (Hsummary : report = summary count st)
    by (destruct (ending _); congruence).
  subst report. unfold summary in Hrate. cbn [success_rate] in Hrate.
  destruct (success_count st >? 0) eqn:Hpos; [ | discriminate ].
  apply Z.gtb_lt in Hpos. injection Hrate as <-.
  destruct (success_count st) as [ | s | s ] eqn:Es; try lia.
  destruct (fail_count st) as [ | f | f ] eqn:Ef; try lia;
    unfold Qlt, Qle, Qeq, Qdiv, Qmult, Qinv, inject_Z;
    cbn [Qnum Qden Z.add]; repeat split; try lia; try discriminate.
Qed.

Lemma X17_success_rate_is_a_percentage_witness :
  let env := map env_of [Response 429; Response 200; Response 200] in
  exists rate,
    option_map success_rate (snd (send_multiple_messages 2 1 2 env))
    = Some (Some rate)
    /\ (0 < rate)%Q /\ (rate <= 100)%Q.
Proof.
  cbv zeta.
  pose (env := map env_of [Response 429; Response 200; Response 200]).
  destruct (snd (send_multiple_messages 2 1 2 env)) as [report|] eqn:Hrep;
    [ | discriminate Hrep ].
  destruct (success_rate report) as [rate|] eqn:Hrate;
    [ | vm_compute in Hrep; injection Hrep as <-; discriminate Hrate ].
  destruct (X17_success_rate_is_a_percentage 2 1 2 env report rate
              Hrep Hrate) as (Hpos & Hle & _).
  fold env. rewrite Hrep. exists rate. cbn [option_map]. rewrite Hrate.
  split; [reflexivity|]. split; assumption.
Defined.
